(** * Reward and termination logic of the ai2thor tasks

    A shallow embedding of [gym_ai2thor/tasks.py]: the three task classes
    [PickUpTask], [PickUpAndFindReceptacleTask] and [ExploreAllObjects],
    their constructors, [transition_reward] and [reset], followed by the
    properties of the specification checked against them.

    Modelling choices.
    - Python numbers (the rewards) are kept abstract: a type [num] with the
      operations the code applies to them ([+], unary [-], the literals [0],
      [50] and [-0.01]).  No algebraic law is assumed, so every statement
      holds for Python floats as well as for exact numbers; the examples run
      on rationals.
    - A method of a task object is a function in a state-and-exception monad
      over the object: it returns a value or raises, together with the object
      as the call left it.
    - [dict]s are finite maps ([gmap]) with string keys, the [discoverd] set
      is a [gset]; the objects of the simulator are records holding the keys
      the code reads.  [print] calls are not modelled. *)

From stdpp Require Import gmap strings list.
From Stdlib Require Import ZArith QArith.

Set Default Proof Using "Type".
#[local] Set Warnings "-clear-no-such-hyp".
Open Scope Z_scope.

(** ** Python numbers *)

Class PyNumber (num : Type) := {
  nadd : num → num → num;         (* [a + b] *)
  nneg : num → num;               (* [- a] *)
  of_int : Z → num;               (* an [int] literal used as a number *)
  float_neg_0_01 : num;           (* the literal [-0.01] *)
}.

(** Exact rationals, used to evaluate the model on concrete inputs. *)
#[export] Instance Q_number : PyNumber Q := {
  nadd a b := Qred (Qplus a b);
  nneg a := Qopp a;
  of_int z := inject_Z z;
  float_neg_0_01 := Qmake (-1) 100;
}.

(** ** Exceptions and the monad of methods *)

Inductive exn : Type :=
  | KeyError (key : string)                        (* [d[key]] on a missing key *)
  | IndexError                                     (* [l[0]] on an empty list *)
  | TypeError                                      (* [None[...]] *)
  | AssertionError                                 (* a failed [assert] *)
  | InvalidTaskParams (missing_objects : list string).

Inductive result (A : Type) : Type :=
  | Ok (a : A)
  | Raise (e : exn).
Arguments Ok {A} a.
Arguments Raise {A} e.

#[export] Instance result_ret : MRet result := λ A a, Ok a.
#[export] Instance result_bind : MBind result := λ A B f r,
  match r with
  | Ok a => f a
  | Raise e => Raise e
  end.

(** A method on an object of type [S] returning an [A]. *)
Definition M (S A : Type) : Type := S → result A * S.

#[export] Instance M_ret S : MRet (M S) := λ A a self, (Ok a, self).
#[export] Instance M_bind S : MBind (M S) := λ A B f m self,
  match m self with
  | (Ok a, self') => f a self'
  | (Raise e, self') => (Raise e, self')
  end.

Definition get_self {S} : M S S := λ self, (Ok self, self).
Definition put_self {S} (self' : S) : M S unit := λ _, (Ok tt, self').
Definition raise {S A} (e : exn) : M S A := λ self, (Raise e, self).

(** An expression that may raise, evaluated inside a method. *)
Definition eval {S A} (r : result A) : M S A := λ self, (r, self).

(** [assert c] *)
Definition assert {S} (c : bool) : M S unit :=
  if c then mret tt else raise AssertionError.

(** [for x in l: acc = body(x, acc)] *)
Fixpoint for_each {S A B} (body : B → A → M S A) (l : list B) (acc : A) : M S A :=
  match l with
  | [] => mret acc
  | x :: rest => acc' ← body x acc; for_each body rest acc'
  end.

(** ** Python values *)

(** Truth value of a list and of an [int] or [None]. *)
Definition bool_of_list {A} (l : list A) : bool :=
  match l with [] => false | _ :: _ => true end.

Definition bool_of_int (n : option Z) : bool :=
  match n with None => false | Some z => negb (z =? 0) end.

(** [l[0]] *)
Definition index0 {A} (l : list A) : result A :=
  match l with
  | x :: _ => Ok x
  | [] => Raise IndexError
  end.

(** [k in d] and [d.get(k, v)] on a dict. *)
Definition dict_in {V} (k : string) (d : gmap string V) : bool :=
  bool_decide (is_Some (d !! k)).

Definition dict_get {V} (d : gmap string V) (k : string) (v : V) : V :=
  default v (d !! k).

(** An object of the simulator: the keys of its dict that the tasks read
    ([position] is only printed). *)
Record ThorObject : Type := {
  objectType : string;
  name : string;
  visible : bool;
}.

(** [x['objectType']] where [x] may be [None]. *)
Definition subscript_objectType (x : option ThorObject) : result string :=
  match x with
  | Some o => Ok (objectType o)
  | None => Raise TypeError
  end.

(** [state.metadata]: the keys the tasks read.  The three descriptors of
    the last events are [None] when there was no such event. *)
Record Metadata : Type := {
  inventoryObjects : list ThorObject;
  lastObjectPutReceptacle : option ThorObject;
  lastObjectOpened : option ThorObject;
  lastObjectClosed : option ThorObject;
  objects : list ThorObject;
}.

Record Event : Type := { metadata : Metadata }.

(** ** Configuration: the keyword arguments of the constructors *)

Section Config.
Context {num : Type}.

(** [kwargs['task']]; an unset option is [None]. *)
Record TaskOptions : Type := {
  opt_target_objects : option (gmap string num);
  opt_target_receptacles : option (gmap string num);
  opt_target_receptacles_need_open : option (gmap string num);
}.

(** [kwargs].  [max_episode_length] may be unset, or set to [None] or to an
    [int].  The keys ['task'] and ['pickup_objects'] are always supplied by
    the environment that builds the task. *)
Record Kwargs : Type := {
  opt_max_episode_length : option (option Z);
  opt_movement_reward : option num;
  task : TaskOptions;
  pickup_objects : list string;
}.

(** [kwargs['task']['target_objects']] *)
Definition task_target_objects (kwargs : Kwargs) : result (gmap string num) :=
  match opt_target_objects (task kwargs) with
  | Some d => Ok d
  | None => Raise (KeyError "target_objects")
  end.

(** [d.keys()]; the order of a [gmap] stands for the insertion order of
    the dict. *)
Definition keys (d : gmap string num) : list string := (map_to_list d).*1.
End Config.
Arguments TaskOptions : clear implicits.
Arguments Kwargs : clear implicits.

(** ** class BaseTask *)

Module BaseTask.
Section BaseTask.
Context {num : Type} `{!PyNumber num}.

Record t : Type := {
  task_config : Kwargs num;
  max_episode_length : option Z;
  movement_reward : num;
  step_num : Z;
}.

Definition __init__ (config : Kwargs num) : t := {|
  task_config := config;
  max_episode_length := default (Some 1000) (opt_max_episode_length config);
  movement_reward := default float_neg_0_01 (opt_movement_reward config);
  step_num := 0;
|}.

Definition set_step_num (n : Z) (self : t) : t := {|
  task_config := task_config self;
  max_episode_length := max_episode_length self;
  movement_reward := movement_reward self;
  step_num := n;
|}.

(** [self.max_episode_length and self.step_num >= self.max_episode_length] *)
Definition episode_length_reached (self : t) : bool :=
  bool_of_int (max_episode_length self) &&
  match max_episode_length self with
  | Some n => n <=? step_num self
  | None => false
  end.
End BaseTask.
Arguments t : clear implicits.
End BaseTask.

(** ** class PickUpTask(BaseTask) *)

Module PickUpTask.
Section PickUpTask.
Context {num : Type} `{!PyNumber num}.

Record t : Type := {
  base : BaseTask.t num;
  target_objects : gmap string num;
  prev_inventory : list ThorObject;
}.

Definition __init__ (kwargs : Kwargs num) : result t :=
  let base := BaseTask.__init__ kwargs in
  targets ← task_target_objects kwargs;
  let missing_objects := filter (λ obj, obj ∉ pickup_objects kwargs) (keys targets) in
  if bool_of_list missing_objects then Raise (InvalidTaskParams missing_objects)
  else Ok {|
    base := base;
    target_objects := default ∅ (opt_target_objects (task kwargs));
    prev_inventory := [];
  |}.

(** [not self.prev_inventory and curr_inventory and
     curr_inventory[0]['objectType'] in self.target_objects]; [and]
    evaluates its right operand only when the left one is true. *)
Definition object_picked_up (self : t) (curr_inventory : list ThorObject)
  : result bool :=
  if negb (bool_of_list (prev_inventory self)) then
    if bool_of_list curr_inventory then
      o ← index0 curr_inventory;
      mret (dict_in (objectType o) (target_objects self))
    else mret false
  else mret false.

Definition set_prev_inventory (inv : list ThorObject) (self : t) : t := {|
  base := base self;
  target_objects := target_objects self;
  prev_inventory := inv;
|}.

Definition transition_reward (state : Event) (action_str : option string)
  : M t (num * bool) :=
  self ← get_self;
  let reward := BaseTask.movement_reward (base self) in
  let done := false in
  let curr_inventory := inventoryObjects (metadata state) in
  object_picked_up ← eval (object_picked_up self curr_inventory);
  reward ←
    (if object_picked_up : bool then
       o ← eval (index0 curr_inventory);
       mret (nadd reward (dict_get (target_objects self) (objectType o) (of_int 0)))
     else mret reward);
  let done := if BaseTask.episode_length_reached (base self) then true else done in
  _ ← put_self (set_prev_inventory (inventoryObjects (metadata state)) self);
  mret (reward, done).

Definition reset : M t unit :=
  self ← get_self;
  put_self {|
    base := BaseTask.set_step_num 0 (base self);
    target_objects := target_objects self;
    prev_inventory := [];
  |}.
End PickUpTask.
Arguments t : clear implicits.
End PickUpTask.

(** ** class PickUpAndFindReceptacleTask(BaseTask) *)

Module PickUpAndFindReceptacleTask.
Section PickUpAndFindReceptacleTask.
Context {num : Type} `{!PyNumber num}.

Record t : Type := {
  base : BaseTask.t num;
  target_objects : gmap string num;
  target_receptacles : gmap string num;
  target_receptacles_need_open : gmap string num;
  prev_inventory : list ThorObject;
}.

Definition __init__ (kwargs : Kwargs num) : result t :=
  let base := BaseTask.__init__ kwargs in
  targets ← task_target_objects kwargs;
  let missing_objects := filter (λ obj, obj ∉ pickup_objects kwargs) (keys targets) in
  if bool_of_list missing_objects then Raise (InvalidTaskParams missing_objects)
  else Ok {|
    base := base;
    target_objects := default ∅ (opt_target_objects (task kwargs));
    target_receptacles := default ∅ (opt_target_receptacles (task kwargs));
    target_receptacles_need_open :=
      default ∅ (opt_target_receptacles_need_open (task kwargs));
    prev_inventory := [];
  |}.

(** [not self.prev_inventory and curr_inventory and
     curr_inventory[0]['objectType'] in self.target_objects] *)
Definition object_picked_up (self : t) (curr_inventory : list ThorObject)
  : result bool :=
  if negb (bool_of_list (prev_inventory self)) then
    if bool_of_list curr_inventory then
      o ← index0 curr_inventory;
      mret (dict_in (objectType o) (target_objects self))
    else mret false
  else mret false.

(** [self.prev_inventory and not curr_inventory and
     self.prev_inventory[0]['objectType'] in self.target_objects] *)
Definition object_put_down (self : t) (curr_inventory : list ThorObject)
  : result bool :=
  if bool_of_list (prev_inventory self) then
    if negb (bool_of_list curr_inventory) then
      o ← index0 (prev_inventory self);
      mret (dict_in (objectType o) (target_objects self))
    else mret false
  else mret false.

(** [action_str == "OpenObject" and
     state.metadata["lastObjectOpened"] is not None] *)
Definition object_opened (state : Event) (action_str : option string) : bool :=
  bool_decide (action_str = Some "OpenObject") &&
  bool_decide (lastObjectOpened (metadata state) ≠ None).

(** [action_str == "CloseObject" and
     state.metadata["lastObjectClosed"] is not None] *)
Definition object_closed (state : Event) (action_str : option string) : bool :=
  bool_decide (action_str = Some "CloseObject") &&
  bool_decide (lastObjectClosed (metadata state) ≠ None).

Definition set_prev_inventory (inv : list ThorObject) (self : t) : t := {|
  base := base self;
  target_objects := target_objects self;
  target_receptacles := target_receptacles self;
  target_receptacles_need_open := target_receptacles_need_open self;
  prev_inventory := inv;
|}.

Definition transition_reward (state : Event) (action_str : option string)
  : M t (num * bool) :=
  self ← get_self;
  let reward := BaseTask.movement_reward (base self) in
  let done := false in
  let curr_inventory := inventoryObjects (metadata state) in
  object_picked_up ← eval (object_picked_up self curr_inventory);
  object_put_down ← eval (object_put_down self curr_inventory);
  reward ←
    (if object_picked_up : bool then
       o ← eval (index0 curr_inventory);
       let special_reward :=
         dict_get (target_objects self) (objectType o) (of_int 0) in
       mret (nadd reward special_reward)
     else mret reward);
  reward ←
    (if object_put_down : bool then
       receptacle ←
         eval (subscript_objectType (lastObjectPutReceptacle (metadata state)));
       let special_reward :=
         dict_get (target_receptacles self) receptacle (of_int 0) in
       mret (nadd reward special_reward)
     else mret reward);
  reward ←
    (if object_opened state action_str then
       opened ← eval (subscript_objectType (lastObjectOpened (metadata state)));
       let special_reward :=
         dict_get (target_receptacles_need_open self) opened (of_int 0) in
       mret (nadd reward special_reward)
     else mret reward);
  reward ←
    (if object_closed state action_str then
       opened ← eval (subscript_objectType (lastObjectOpened (metadata state)));
       let special_reward :=
         nneg (dict_get (target_receptacles_need_open self) opened (of_int 0)) in
       mret (nadd reward special_reward)
     else mret reward);
  let done := if BaseTask.episode_length_reached (base self) then true else done in
  _ ← put_self (set_prev_inventory (inventoryObjects (metadata state)) self);
  mret (reward, done).

Definition reset : M t unit :=
  self ← get_self;
  put_self {|
    base := BaseTask.set_step_num 0 (base self);
    target_objects := target_objects self;
    target_receptacles := target_receptacles self;
    target_receptacles_need_open := target_receptacles_need_open self;
    prev_inventory := [];
  |}.
End PickUpAndFindReceptacleTask.
Arguments t : clear implicits.
End PickUpAndFindReceptacleTask.

(** ** class ExploreAllObjects(BaseTask) *)

Module ExploreAllObjects.
Section ExploreAllObjects.
Context {num : Type} `{!PyNumber num}.

Record t : Type := {
  base : BaseTask.t num;
  target_objects : gmap string num;
  discoverd : gset string;
}.

Definition __init__ (kwargs : Kwargs num) : result t :=
  let base := BaseTask.__init__ kwargs in
  Ok {|
    base := base;
    target_objects := default ∅ (opt_target_objects (task kwargs));
    discoverd := ∅;
  |}.

Definition set_discoverd (found : gset string) (self : t) : t := {|
  base := base self;
  target_objects := target_objects self;
  discoverd := found;
|}.

(** [self.discoverd.add(x)] *)
Definition discoverd_add (x : string) : M t unit :=
  self ← get_self;
  put_self (set_discoverd ({[ x ]} ∪ discoverd self) self).

(** The body of the loop over [state.metadata['objects']]. *)
Definition visit (obj : ThorObject) (reward : num) : M t num :=
  self ← get_self;
  _ ← assert (dict_in (name obj) (target_objects self));
  if visible obj && negb (bool_decide (name obj ∈ discoverd self)) then
    _ ← discoverd_add (name obj);
    mret (nadd reward (dict_get (target_objects self) (name obj) (of_int 0)))
  else mret reward.

Definition transition_reward (state : Event) (action_str : option string)
  : M t (num * bool) :=
  self ← get_self;
  let reward := BaseTask.movement_reward (base self) in
  let done := false in
  reward ← for_each visit (objects (metadata state)) reward;
  self ← get_self;
  if BaseTask.episode_length_reached (base self) ||
     bool_decide (size (discoverd self) = size (target_objects self))
  then
    let reward :=
      if BaseTask.episode_length_reached (base self) then reward
      else nadd reward (of_int 50) in
    let done := true in
    mret (reward, done)
  else mret (reward, done).

Definition reset : M t unit :=
  self ← get_self;
  put_self {|
    base := BaseTask.set_step_num 0 (base self);
    target_objects := target_objects self;
    discoverd := ∅;
  |}.
End ExploreAllObjects.
Arguments t : clear implicits.
End ExploreAllObjects.

(** ** The interface of a task, and an episode driven by its owner *)

(** What the three classes share through [BaseTask]: the base fields and the
    two methods every subclass overrides. *)
Class Task (num : Type) (T : Type) := {
  task_base : T → BaseTask.t num;
  task_set_base : BaseTask.t num → T → T;
  task_transition_reward : Event → option string → M T (num * bool);
  task_reset : M T unit;
}.

Section Instances.
Context {num : Type} `{!PyNumber num}.

#[export] Instance PickUpTask_Task : Task num (PickUpTask.t num) := {
  task_base := PickUpTask.base;
  task_set_base b self := {|
    PickUpTask.base := b;
    PickUpTask.target_objects := PickUpTask.target_objects self;
    PickUpTask.prev_inventory := PickUpTask.prev_inventory self;
  |};
  task_transition_reward := PickUpTask.transition_reward;
  task_reset := PickUpTask.reset;
}.

#[export] Instance PickUpAndFindReceptacleTask_Task
  : Task num (PickUpAndFindReceptacleTask.t num) := {
  task_base := PickUpAndFindReceptacleTask.base;
  task_set_base b self := {|
    PickUpAndFindReceptacleTask.base := b;
    PickUpAndFindReceptacleTask.target_objects :=
      PickUpAndFindReceptacleTask.target_objects self;
    PickUpAndFindReceptacleTask.target_receptacles :=
      PickUpAndFindReceptacleTask.target_receptacles self;
    PickUpAndFindReceptacleTask.target_receptacles_need_open :=
      PickUpAndFindReceptacleTask.target_receptacles_need_open self;
    PickUpAndFindReceptacleTask.prev_inventory :=
      PickUpAndFindReceptacleTask.prev_inventory self;
  |};
  task_transition_reward := PickUpAndFindReceptacleTask.transition_reward;
  task_reset := PickUpAndFindReceptacleTask.reset;
}.

#[export] Instance ExploreAllObjects_Task : Task num (ExploreAllObjects.t num) := {
  task_base := ExploreAllObjects.base;
  task_set_base b self := {|
    ExploreAllObjects.base := b;
    ExploreAllObjects.target_objects := ExploreAllObjects.target_objects self;
    ExploreAllObjects.discoverd := ExploreAllObjects.discoverd self;
  |};
  task_transition_reward := ExploreAllObjects.transition_reward;
  task_reset := ExploreAllObjects.reset;
}.
End Instances.

(** One step of the owner of a task: it advances [task.step_num] by [ticks]
    (the stepping loop does [step_num += 1]), then calls
    [task.transition_reward(snapshot, last_action)]. *)
Record call : Type := {
  ticks : Z;
  snapshot : Event;
  last_action : option string;
}.

Section Episode.
Context {num T : Type} `{!Task num T}.

(** [task.step_num += n], done from outside the task. *)
Definition advance (n : Z) (self : T) : T :=
  task_set_base
    (BaseTask.set_step_num (BaseTask.step_num (task_base self) + n) (task_base self))
    self.

(** Feeds a sequence of calls to a task: the (reward, done) pairs returned,
    the exception that ended the sequence if one was raised, and the task
    as it is left. *)
Fixpoint feed (calls : list call) (self : T)
  : list (num * bool) * option exn * T :=
  match calls with
  | [] => ([], None, self)
  | c :: rest =>
      match task_transition_reward (snapshot c) (last_action c)
              (advance (ticks c) self) with
      | (Ok rd, self') =>
          let '(out, err, self'') := feed rest self' in (rd :: out, err, self'')
      | (Raise e, self') => ([], Some e, self')
      end
  end.

(** [task.reset()], as a function on the object. *)
Definition after_reset (self : T) : T := (task_reset self).2.
End Episode.

(** ** Concrete tasks and snapshots, on rationals *)

Module Examples.
Definition thing (ty : string) (vis : bool) : ThorObject :=
  {| objectType := ty; name := ty; visible := vis |}.

Definition snapshot_of (inv : list ThorObject) (put opened closed : option ThorObject)
  (objs : list ThorObject) : Event :=
  {| metadata := {|
       inventoryObjects := inv;
       lastObjectPutReceptacle := put;
       lastObjectOpened := opened;
       lastObjectClosed := closed;
       objects := objs;
     |} |}.

(** A configuration with every option of the task set. *)
Definition kwargs_full : Kwargs Q := {|
  opt_max_episode_length := Some (Some 3);
  opt_movement_reward := None;
  task := {|
    opt_target_objects := Some {[ "Apple" := 5%Q; "Mug" := 1%Q ]};
    opt_target_receptacles := Some {[ "Fridge" := 3%Q ]};
    opt_target_receptacles_need_open := Some {[ "Fridge" := 2%Q; "Cabinet" := 7%Q ]};
  |};
  pickup_objects := ["Apple"; "Mug"; "Plate"];
|}.

(** The same with [target_objects] left unset. *)
Definition kwargs_unset : Kwargs Q := {|
  opt_max_episode_length := Some (Some 3);
  opt_movement_reward := None;
  task := {|
    opt_target_objects := None;
    opt_target_receptacles := Some {[ "Fridge" := 3%Q ]};
    opt_target_receptacles_need_open := None;
  |};
  pickup_objects := ["Apple"; "Mug"; "Plate"];
|}.

(** A target object that cannot be picked up. *)
Definition kwargs_invalid : Kwargs Q := {|
  opt_max_episode_length := None;
  opt_movement_reward := Some (-1)%Q;
  task := {|
    opt_target_objects := Some {[ "Apple" := 5%Q; "Sofa" := 9%Q ]};
    opt_target_receptacles := None;
    opt_target_receptacles_need_open := None;
  |};
  pickup_objects := ["Apple"; "Mug"; "Plate"];
|}.

Definition base_at (step : Z) : BaseTask.t Q :=
  BaseTask.set_step_num step (BaseTask.__init__ kwargs_full).

Definition pick_up_task (step : Z) (prev : list ThorObject) : PickUpTask.t Q := {|
  PickUpTask.base := base_at step;
  PickUpTask.target_objects := {[ "Apple" := 5%Q; "Mug" := 1%Q ]};
  PickUpTask.prev_inventory := prev;
|}.

Definition receptacle_task (step : Z) (prev : list ThorObject)
  : PickUpAndFindReceptacleTask.t Q := {|
  PickUpAndFindReceptacleTask.base := base_at step;
  PickUpAndFindReceptacleTask.target_objects := {[ "Apple" := 5%Q; "Mug" := 1%Q ]};
  PickUpAndFindReceptacleTask.target_receptacles := {[ "Fridge" := 3%Q ]};
  PickUpAndFindReceptacleTask.target_receptacles_need_open :=
    {[ "Fridge" := 2%Q; "Cabinet" := 7%Q ]};
  PickUpAndFindReceptacleTask.prev_inventory := prev;
|}.

Definition explore_task (step : Z) (found : gset string) : ExploreAllObjects.t Q := {|
  ExploreAllObjects.base := base_at step;
  ExploreAllObjects.target_objects := {[ "Apple" := 5%Q; "Mug" := 1%Q ]};
  ExploreAllObjects.discoverd := found;
|}.

(** An apple in hand. *)
Definition holding_apple : Event := snapshot_of [thing "Apple" true] None None None [].

(** The held object was put into the fridge. *)
Definition put_in_fridge : Event :=
  snapshot_of [] (Some (thing "Fridge" true)) None None [].

(** The hand is empty again and no receptacle was recorded. *)
Definition put_nowhere : Event := snapshot_of [] None None None [].

(** The fridge was closed; the object opened last is the cabinet. *)
Definition closed_fridge : Event :=
  snapshot_of [] None (Some (thing "Cabinet" true)) (Some (thing "Fridge" true)) [].

(** The fridge was closed and nothing was ever opened. *)
Definition closed_never_opened : Event :=
  snapshot_of [] None None (Some (thing "Fridge" true)) [].

(** An apple in hand while the fridge is opened. *)
Definition holding_apple_fridge_open : Event :=
  snapshot_of [thing "Apple" true] None (Some (thing "Fridge" true)) None [].

(** The scene shows the mug, then an object that is no target. *)
Definition scene_mug_then_stranger : Event :=
  snapshot_of [] None None None [thing "Mug" true; thing "Sofa" true].

(** The scene shows the apple (hidden) and the mug (visible). *)
Definition scene_mug_visible : Event :=
  snapshot_of [] None None None [thing "Apple" false; thing "Mug" true].
End Examples.


(** ** Vocabulary of the statements *)

(** The names of the visible objects of a scene. *)
Fixpoint visible_names (scene : list ThorObject) : gset string :=
  match scene with
  | [] => ∅
  | obj :: rest =>
      (if visible obj then {[ name obj ]} else ∅) ∪ visible_names rest
  end.

(** The contract of [ExploreAllObjects] on one object of the scene: its name
    is a key of [target_objects]. *)
Definition is_target {num} (targets : gmap string num) (obj : ThorObject) : Prop :=
  is_Some (targets !! name obj).

(** A [PickUpAndFindReceptacleTask] seen as a [PickUpTask]: the fields the
    two classes share. *)
Definition as_pick_up {num} (self : PickUpAndFindReceptacleTask.t num)
  : PickUpTask.t num := {|
  PickUpTask.base := PickUpAndFindReceptacleTask.base self;
  PickUpTask.target_objects := PickUpAndFindReceptacleTask.target_objects self;
  PickUpTask.prev_inventory := PickUpAndFindReceptacleTask.prev_inventory self;
|}.

(** The steps the owner has added to [step_num] over a sequence of calls. *)
Definition total_ticks (calls : list call) : Z :=
  foldr (λ c acc, ticks c + acc) 0 calls.

(** * Properties *)

(** Unfolds the monad so that a method applied to an object computes. *)
Ltac run_method :=
  unfold mbind, M_bind, result_bind, mret, M_ret, result_ret,
    get_self, put_self, raise, eval, assert in *;
  simpl in *.

Section ActionTests.
(** The two tests on [action_str] at the values used below. *)
Lemma object_opened_no_action state :
  PickUpAndFindReceptacleTask.object_opened state None = false.
Proof. done. Qed.

Lemma object_closed_no_action state :
  PickUpAndFindReceptacleTask.object_closed state None = false.
Proof. done. Qed.

Lemma object_opened_on_close state :
  PickUpAndFindReceptacleTask.object_opened state (Some "CloseObject") = false.
Proof. done. Qed.

Lemma object_closed_on_close state :
  PickUpAndFindReceptacleTask.object_closed state (Some "CloseObject") =
  bool_decide (lastObjectClosed (metadata state) ≠ None).
Proof. done. Qed.

Lemma object_opened_closed_exclusive state action_str :
  PickUpAndFindReceptacleTask.object_opened state action_str = true →
  PickUpAndFindReceptacleTask.object_closed state action_str = true →
  False.
Proof.
  unfold PickUpAndFindReceptacleTask.object_opened,
    PickUpAndFindReceptacleTask.object_closed.
  intros [Ho _]%andb_prop [Hc _]%andb_prop.
  apply bool_decide_eq_true_1 in Ho, Hc. congruence.
Qed.
End ActionTests.

Section EdgeTests.
Context {num : Type} `{!PyNumber num}.
Implicit Types (curr : list ThorObject).

(** The edge tests never raise: the subscript [[0]] is guarded by the
    truth of the list. *)
Lemma pick_up_edge_total (self : PickUpTask.t num) curr :
  ∃ b, PickUpTask.object_picked_up self curr = Ok b ∧
       (b = true → PickUpTask.prev_inventory self = [] ∧
                   ∃ o rest, curr = o :: rest ∧
                     dict_in (objectType o) (PickUpTask.target_objects self) = true).
Proof.
  unfold PickUpTask.object_picked_up.
  destruct (PickUpTask.prev_inventory self), curr as [|o rest]; simpl;
    eexists; (split; [reflexivity|]); intros Hb; try discriminate.
  split; [done|]. by exists o, rest.
Qed.

Lemma picked_up_edge_total (self : PickUpAndFindReceptacleTask.t num) curr :
  ∃ b, PickUpAndFindReceptacleTask.object_picked_up self curr = Ok b ∧
       (b = true → PickUpAndFindReceptacleTask.prev_inventory self = [] ∧
                   ∃ o rest, curr = o :: rest ∧
                     dict_in (objectType o)
                       (PickUpAndFindReceptacleTask.target_objects self) = true).
Proof.
  unfold PickUpAndFindReceptacleTask.object_picked_up.
  destruct (PickUpAndFindReceptacleTask.prev_inventory self), curr as [|o rest];
    simpl; eexists; (split; [reflexivity|]); intros Hb; try discriminate.
  split; [done|]. by exists o, rest.
Qed.

Lemma put_down_edge_total (self : PickUpAndFindReceptacleTask.t num) curr :
  ∃ b, PickUpAndFindReceptacleTask.object_put_down self curr = Ok b ∧
       (b = true → curr = [] ∧
                   ∃ o rest, PickUpAndFindReceptacleTask.prev_inventory self = o :: rest ∧
                     dict_in (objectType o)
                       (PickUpAndFindReceptacleTask.target_objects self) = true).
Proof.
  unfold PickUpAndFindReceptacleTask.object_put_down.
  destruct (PickUpAndFindReceptacleTask.prev_inventory self) as [|o rest], curr;
    simpl; eexists; (split; [reflexivity|]); intros Hb; try discriminate.
  split; [done|]. by exists o, rest.
Qed.

(** Picking up needs an empty hand before and a full one after, putting
    down the converse: the two edges never fire in the same step. *)
Lemma picked_up_put_down_exclusive (self : PickUpAndFindReceptacleTask.t num) curr :
  PickUpAndFindReceptacleTask.object_picked_up self curr = Ok true →
  PickUpAndFindReceptacleTask.object_put_down self curr = Ok true →
  False.
Proof.
  intros Hup Hdown.
  destruct (picked_up_edge_total self curr) as (b & Hb & Hspec).
  destruct (put_down_edge_total self curr) as (b' & Hb' & Hspec').
  rewrite Hup in Hb. rewrite Hdown in Hb'. simplify_eq.
  destruct Hspec as [_ (o & rest & -> & _)]; [done|].
  by destruct Hspec' as [? _].
Qed.
End EdgeTests.

Section ReceptacleStep.
Context {num : Type} `{!PyNumber num}.
Import PickUpAndFindReceptacleTask.
Implicit Types (self : PickUpAndFindReceptacleTask.t num) (state : Event).

(** A step either raises [TypeError] before touching the object, or returns
    after storing the inventory; [done] is the test on the episode length. *)
Lemma receptacle_step_outcome self state action_str :
  transition_reward state action_str self = (Raise TypeError, self) ∨
  ∃ reward,
    transition_reward state action_str self =
    (Ok (reward, BaseTask.episode_length_reached (base self)),
     set_prev_inventory (inventoryObjects (metadata state)) self).
Proof.
  unfold transition_reward. run_method.
  destruct (picked_up_edge_total self (inventoryObjects (metadata state)))
    as (up & -> & Hup).
  destruct (put_down_edge_total self (inventoryObjects (metadata state)))
    as (down & -> & Hdown).
  assert (Hidx : up = true → ∃ o, index0 (inventoryObjects (metadata state)) = Ok o).
  { intros (_ & o & rest & -> & _)%Hup. by exists o. }
  destruct up; [destruct Hidx as [o ->]; [done|] |];
    (destruct down;
     [destruct (lastObjectPutReceptacle (metadata state)); simpl; [|by left] |]);
    (destruct (object_opened state action_str) eqn:Hopen;
     [destruct (lastObjectOpened (metadata state)) eqn:Ho; simpl; [|by left] |]);
    (destruct (object_closed state action_str) eqn:Hclose;
     [destruct (lastObjectOpened (metadata state)) eqn:Ho'; simpl; [|by left] |]);
    right; destruct (BaseTask.episode_length_reached (base self)); eauto.
Qed.

(** On a put-down edge the receptacle is subscripted, [None] or not. *)
Lemma put_down_without_receptacle_raises self state action_str :
  object_put_down self (inventoryObjects (metadata state)) = Ok true →
  lastObjectPutReceptacle (metadata state) = None →
  transition_reward state action_str self = (Raise TypeError, self).
Proof.
  intros Hdown Hnone. unfold transition_reward. run_method.
  destruct (picked_up_edge_total self (inventoryObjects (metadata state)))
    as (up & Hup & Hspec).
  destruct up.
  { by destruct (picked_up_put_down_exclusive self _ Hup Hdown). }
  by rewrite Hup, Hdown, Hnone.
Qed.

(** With the receptacle recorded, the put-down bonus is the entry of
    [target_receptacles] for its type, [0] when it has none. *)
Lemma put_down_bonus self state receptacle :
  object_put_down self (inventoryObjects (metadata state)) = Ok true →
  lastObjectPutReceptacle (metadata state) = Some receptacle →
  transition_reward state None self =
  (Ok (nadd (BaseTask.movement_reward (base self))
            (dict_get (target_receptacles self) (objectType receptacle) (of_int 0)),
       BaseTask.episode_length_reached (base self)),
   set_prev_inventory [] self).
Proof.
  intros Hdown Hsome. unfold transition_reward. run_method.
  destruct (picked_up_edge_total self (inventoryObjects (metadata state)))
    as (up & Hup & Hspec).
  destruct up.
  { by destruct (picked_up_put_down_exclusive self _ Hup Hdown). }
  destruct (put_down_edge_total self (inventoryObjects (metadata state)))
    as (down & Hdown' & [Hcurr _]); [congruence|].
  rewrite Hup, Hdown, Hsome, Hcurr. simpl.
  by destruct (BaseTask.episode_length_reached (base self)).
Qed.
End ReceptacleStep.

Section CloseObject.
Context {num : Type} `{!PyNumber num}.
Import PickUpAndFindReceptacleTask.
Implicit Types (self : PickUpAndFindReceptacleTask.t num) (state : Event).

(** C1.  In a step whose action is ["CloseObject"] and whose
    [lastObjectClosed] is present, the reward is what the same step earns
    without the action, minus the entry of [target_receptacles_need_open]
    for the type of [lastObjectOpened]; the closed object occurs nowhere in
    the result.  (Stated for [lastObjectOpened] present; the step raises
    where the same step without the action raises.) *)
Theorem close_subtracts_reward_of_last_opened self state closed opened :
  lastObjectClosed (metadata state) = Some closed →
  lastObjectOpened (metadata state) = Some opened →
  transition_reward state (Some "CloseObject") self =
  match transition_reward state None self with
  | (Ok (reward, done), self') =>
      (Ok (nadd reward
             (nneg (dict_get (target_receptacles_need_open self)
                      (objectType opened) (of_int 0))),
           done), self')
  | (Raise e, self') => (Raise e, self')
  end.
Proof.
  intros Hclosed Hopened. unfold transition_reward.
  rewrite object_opened_no_action, object_closed_no_action,
    object_opened_on_close, object_closed_on_close, Hclosed, Hopened.
  rewrite bool_decide_eq_true_2 by done.
  run_method.
  destruct (object_picked_up self _) as [[] |]; [| |done];
    (destruct (object_put_down self _) as [[] |]; [| |done]);
    try (destruct (index0 (inventoryObjects (metadata state))); [|done]);
    try (destruct (lastObjectPutReceptacle (metadata state)); [|done]);
    simpl; reflexivity.
Qed.

(** C10.  In a step whose action is ["CloseObject"] and whose
    [lastObjectClosed] is present, an absent [lastObjectOpened] makes the
    call raise [TypeError] (the subscript of [None]); no reward is
    returned and the object is left as it was. *)
Theorem close_with_nothing_opened_raises self state closed :
  lastObjectClosed (metadata state) = Some closed →
  lastObjectOpened (metadata state) = None →
  transition_reward state (Some "CloseObject") self = (Raise TypeError, self).
Proof.
  intros Hclosed Hopened.
  destruct (receptacle_step_outcome self state (Some "CloseObject"))
    as [Hraise | [reward Hret]]; [done|].
  exfalso. revert Hret. unfold transition_reward.
  rewrite object_opened_on_close, object_closed_on_close, Hclosed, Hopened.
  rewrite bool_decide_eq_true_2 by done.
  run_method.
  destruct (object_picked_up self _) as [[] |]; [| |done];
    (destruct (object_put_down self _) as [[] |]; [| |done]);
    try (destruct (index0 (inventoryObjects (metadata state))); [|done]);
    try (destruct (lastObjectPutReceptacle (metadata state)); [|done]);
    simpl; done.
Qed.
End CloseObject.

Section EpisodeLength.
Context {num : Type} `{!PyNumber num}.

Lemma episode_length_reached_true (b : BaseTask.t num) n :
  BaseTask.max_episode_length b = Some n → n ≠ 0 → n ≤ BaseTask.step_num b →
  BaseTask.episode_length_reached b = true.
Proof.
  intros Hn Hnz Hle. unfold BaseTask.episode_length_reached. rewrite Hn. simpl.
  apply andb_true_intro. split; [apply negb_true_iff|]; lia.
Qed.

Lemma episode_length_reached_inv (b : BaseTask.t num) :
  BaseTask.episode_length_reached b = true →
  ∃ n, BaseTask.max_episode_length b = Some n ∧ n ≠ 0 ∧ n ≤ BaseTask.step_num b.
Proof.
  unfold BaseTask.episode_length_reached.
  destruct (BaseTask.max_episode_length b) as [n|]; simpl; [|done].
  intros [Hnz Hle]%andb_prop. apply negb_true_iff in Hnz.
  exists n. split; [done|]. lia.
Qed.

(** [PickUpTask.transition_reward] always returns, after storing the
    inventory. *)
Lemma pick_up_step_outcome (self : PickUpTask.t num) state action_str :
  ∃ reward,
    PickUpTask.transition_reward state action_str self =
    (Ok (reward, BaseTask.episode_length_reached (PickUpTask.base self)),
     PickUpTask.set_prev_inventory (inventoryObjects (metadata state)) self).
Proof.
  unfold PickUpTask.transition_reward. run_method.
  destruct (pick_up_edge_total self (inventoryObjects (metadata state)))
    as (up & -> & Hup).
  destruct up.
  - destruct Hup as (_ & o & rest & -> & _); [done|]. simpl.
    destruct (BaseTask.episode_length_reached (PickUpTask.base self)); eauto.
  - destruct (BaseTask.episode_length_reached (PickUpTask.base self)); eauto.
Qed.

(** [PickUpAndFindReceptacleTask.transition_reward] returns whenever the
    descriptors it subscripts are present. *)
Lemma receptacle_step_returns (self : PickUpAndFindReceptacleTask.t num)
    state action_str :
  (PickUpAndFindReceptacleTask.object_put_down self
     (inventoryObjects (metadata state)) = Ok true →
   is_Some (lastObjectPutReceptacle (metadata state))) →
  (PickUpAndFindReceptacleTask.object_closed state action_str = true →
   is_Some (lastObjectOpened (metadata state))) →
  ∃ reward,
    PickUpAndFindReceptacleTask.transition_reward state action_str self =
    (Ok (reward,
         BaseTask.episode_length_reached (PickUpAndFindReceptacleTask.base self)),
     PickUpAndFindReceptacleTask.set_prev_inventory
       (inventoryObjects (metadata state)) self).
Proof.
  intros Hput Hclose.
  destruct (receptacle_step_outcome self state action_str) as [Hraise | Hret];
    [exfalso | done].
  revert Hraise. unfold PickUpAndFindReceptacleTask.transition_reward. run_method.
  destruct (picked_up_edge_total self (inventoryObjects (metadata state)))
    as (up & -> & Hup).
  destruct (put_down_edge_total self (inventoryObjects (metadata state)))
    as (down & Hdown & _).
  rewrite Hdown in Hput |- *.
  assert (Hidx : up = true → ∃ o, index0 (inventoryObjects (metadata state)) = Ok o).
  { intros (_ & o & rest & -> & _)%Hup. by exists o. }
  unfold PickUpAndFindReceptacleTask.object_opened in *.
  destruct up; [destruct Hidx as [o ->]; [done|] |];
    (destruct down; [destruct Hput as [r ->]; [done|] |]);
    (destruct (lastObjectOpened (metadata state)) as [opened|] eqn:Ho; simpl;
     [|rewrite andb_false_r]);
    (destruct (PickUpAndFindReceptacleTask.object_closed state action_str);
     [destruct Hclose as [? ?]; [done|]; simplify_eq |]);
    simpl; repeat case_match; done.
Qed.
End EpisodeLength.

Section ExploreLoop.
Context {num : Type} `{!PyNumber num}.
Import ExploreAllObjects.
Implicit Types (self : ExploreAllObjects.t num) (scene : list ThorObject).

Lemma set_discoverd_id self : set_discoverd (discoverd self) self = self.
Proof. by destruct self. Qed.

Lemma set_discoverd_twice found found' self :
  set_discoverd found (set_discoverd found' self) = set_discoverd found self.
Proof. done. Qed.

Lemma dict_in_is_target self obj :
  dict_in (name obj) (target_objects self) = true ↔ is_target (target_objects self) obj.
Proof. unfold dict_in, is_target. by rewrite bool_decide_eq_true. Qed.

(** One turn of the loop on an object that honours the contract. *)
Lemma visit_target obj reward self :
  is_target (target_objects self) obj →
  visit obj reward self =
  if visible obj && negb (bool_decide (name obj ∈ discoverd self))
  then (Ok (nadd reward (dict_get (target_objects self) (name obj) (of_int 0))),
        set_discoverd ({[ name obj ]} ∪ discoverd self) self)
  else (Ok reward, self).
Proof.
  intros Hin%dict_in_is_target. unfold visit, discoverd_add. run_method.
  rewrite Hin. simpl. by case_match.
Qed.

(** One turn of the loop on an object that breaks it. *)
Lemma visit_stranger obj reward self :
  ¬ is_target (target_objects self) obj →
  visit obj reward self = (Raise AssertionError, self).
Proof.
  intros Hin. unfold visit. run_method.
  destruct (dict_in (name obj) (target_objects self)) eqn:E; [|done].
  by apply dict_in_is_target in E.
Qed.

(** The loop over a scene that honours the contract: every visible name
    ends up in [discoverd]; nothing else changes. *)
Lemma loop_over_targets scene : ∀ reward self,
  Forall (is_target (target_objects self)) scene →
  ∃ reward',
    for_each visit scene reward self =
    (Ok reward', set_discoverd (discoverd self ∪ visible_names scene) self).
Proof.
  induction scene as [|obj rest IH]; intros reward self Hall; simpl.
  - exists reward. unfold mret, M_ret.
    by rewrite (right_id_L ∅ (∪)), set_discoverd_id.
  - apply Forall_cons in Hall as [Hobj Hrest].
    unfold mbind, M_bind. rewrite (visit_target _ _ _ Hobj).
    destruct (visible obj) eqn:Hvis; simpl; [case_bool_decide as Hseen; simpl|].
    + destruct (IH reward self Hrest) as [reward' ->].
      exists reward'. do 2 f_equal. set_solver.
    + destruct (IH (nadd reward (dict_get (target_objects self) (name obj) (of_int 0)))
                  (set_discoverd ({[name obj]} ∪ discoverd self) self) Hrest)
        as [reward' ->].
      exists reward'. rewrite set_discoverd_twice. simpl. do 2 f_equal. set_solver.
    + destruct (IH reward self Hrest) as [reward' ->].
      exists reward'. do 2 f_equal. set_solver.
Qed.

(** The loop stops at the first object that breaks the contract, with the
    visible objects before it already added to [discoverd]. *)
Lemma loop_until_stranger before stranger after reward self :
  Forall (is_target (target_objects self)) before →
  ¬ is_target (target_objects self) stranger →
  for_each visit (before ++ stranger :: after) reward self =
  (Raise AssertionError,
   set_discoverd (discoverd self ∪ visible_names before) self).
Proof.
  intros Hbefore Hstranger. revert reward self Hbefore Hstranger.
  induction before as [|obj rest IH]; intros reward self Hbefore Hstranger; simpl.
  - unfold mbind, M_bind. rewrite (visit_stranger _ _ _ Hstranger).
    by rewrite (right_id_L ∅ (∪)), set_discoverd_id.
  - apply Forall_cons in Hbefore as [Hobj Hrest].
    unfold mbind, M_bind. rewrite (visit_target _ _ _ Hobj).
    destruct (visible obj) eqn:Hvis; simpl; [case_bool_decide as Hseen; simpl|].
    + rewrite (IH reward self Hrest Hstranger). do 2 f_equal. set_solver.
    + rewrite IH by done. rewrite set_discoverd_twice. simpl.
      do 2 f_equal. set_solver.
    + rewrite (IH reward self Hrest Hstranger). do 2 f_equal. set_solver.
Qed.

(** A scene honours the contract or has a first object that breaks it. *)
Lemma first_stranger (targets : gmap string num) scene :
  Forall (is_target targets) scene ∨
  ∃ before stranger after,
    scene = before ++ stranger :: after ∧
    Forall (is_target targets) before ∧ ¬ is_target targets stranger.
Proof.
  induction scene as [|obj rest [Hall | (before & stranger & after & -> & Hb & Hs)]].
  - by left.
  - destruct (decide (is_target targets obj)) as [Hobj | Hobj].
    + left. by constructor.
    + right. by exists [], obj, rest.
  - destruct (decide (is_target targets obj)) as [Hobj | Hobj].
    + right. exists (obj :: before), stranger, after. by repeat constructor.
    + right. by exists [], obj, (before ++ stranger :: after).
Qed.
End ExploreLoop.

Section LastDiscovery.
Context {num : Type} `{!PyNumber num}.
Import ExploreAllObjects.
Implicit Types (self : ExploreAllObjects.t num) (scene : list ThorObject).

(** Objects already discovered earn nothing and change nothing. *)
Lemma loop_all_discovered scene reward self :
  Forall (λ obj, is_target (target_objects self) obj ∧ name obj ∈ discoverd self)
    scene →
  for_each visit scene reward self = (Ok reward, self).
Proof.
  induction 1 as [|obj rest [Hobj Hseen] _ IH]; simpl; [done|].
  unfold mbind, M_bind. rewrite (visit_target _ _ _ Hobj).
  rewrite (bool_decide_eq_true_2 _ Hseen), andb_false_r. exact IH.
Qed.

(** When [o] is the only name a scene can still reveal and the scene shows
    it, the loop earns the reward of [o] once and adds [o] to [discoverd]. *)
Lemma loop_last_target scene : ∀ reward self o r,
  target_objects self !! o = Some r →
  o ∉ discoverd self →
  Forall (λ obj, is_target (target_objects self) obj ∧
                 (name obj = o ∨ name obj ∈ discoverd self)) scene →
  Exists (λ obj, name obj = o ∧ visible obj = true) scene →
  for_each visit scene reward self =
  (Ok (nadd reward r), set_discoverd ({[ o ]} ∪ discoverd self) self).
Proof.
  induction scene as [|obj rest IH]; intros reward self o r Hr Hnew Hall Hshown.
  { by apply Exists_nil in Hshown. }
  apply Forall_cons in Hall as [[Hobj Hname] Hrest]. simpl.
  unfold mbind, M_bind. rewrite (visit_target _ _ _ Hobj).
  destruct (visible obj) eqn:Hvis; simpl; [case_bool_decide as Hseen; simpl|].
  - apply IH; try done.
    apply Exists_cons in Hshown as [[<- _] | ?]; done.
  - destruct Hname as [-> | ?]; [|done].
    unfold dict_get. rewrite Hr. simpl.
    apply loop_all_discovered. simpl.
    eapply Forall_impl; [exact Hrest|]. simpl. intros x [? Hx]. set_solver.
  - apply IH; try done.
    apply Exists_cons in Hshown as [[_ ?] | ?]; [congruence | done].
Qed.

(** With one target left to find, the keys of [target_objects] are the
    discovered names and that target. *)
Lemma one_target_left self o r :
  discoverd self ⊆ dom (target_objects self) →
  S (size (discoverd self)) = size (target_objects self) →
  target_objects self !! o = Some r →
  o ∉ discoverd self →
  dom (target_objects self) = {[ o ]} ∪ discoverd self.
Proof.
  intros Hsub Hsize Hr Hnew. symmetry. apply set_subseteq_size_eq.
  - apply union_subseteq. split; [|done].
    apply singleton_subseteq_l, elem_of_dom. by exists r.
  - rewrite size_dom, size_union, size_singleton by set_solver. lia.
Qed.

(** C6, as amended.  When one target is left to discover, the scene
    honours the contract and shows that target, the call returns
    [done = True] and [movement_reward + target_objects[o]], plus [50]
    unless the episode length is reached in the same step; the target
    joins [discoverd]. *)
Theorem last_discovery_reward self state action_str o r :
  discoverd self ⊆ dom (target_objects self) →
  S (size (discoverd self)) = size (target_objects self) →
  target_objects self !! o = Some r →
  o ∉ discoverd self →
  Forall (is_target (target_objects self)) (objects (metadata state)) →
  Exists (λ obj, name obj = o ∧ visible obj = true) (objects (metadata state)) →
  transition_reward state action_str self =
  (Ok (if BaseTask.episode_length_reached (base self)
       then nadd (BaseTask.movement_reward (base self)) r
       else nadd (nadd (BaseTask.movement_reward (base self)) r) (of_int 50),
       true),
   set_discoverd ({[ o ]} ∪ discoverd self) self).
Proof.
  intros Hsub Hsize Hr Hnew Hcontract Hshown.
  pose proof (one_target_left self o r Hsub Hsize Hr Hnew) as Hdom.
  unfold transition_reward. run_method.
  rewrite (loop_last_target _ _ self o r); try done.
  - simpl.
    assert (size ({[o]} ∪ discoverd self) = size (target_objects self)) as ->.
    { by rewrite <-Hdom, size_dom. }
    rewrite bool_decide_eq_true_2, orb_true_r by done.
    by destruct (BaseTask.episode_length_reached (base self)).
  - eapply Forall_impl; [exact Hcontract|]. simpl. intros obj Hobj.
    split; [done|].
    assert (name obj ∈ dom (target_objects self)) as Hin by by apply elem_of_dom.
    rewrite Hdom in Hin. set_solver.
Qed.
End LastDiscovery.

Section StepOutcomes.
Context {num : Type} `{!PyNumber num}.

(** What a call of [ExploreAllObjects.transition_reward] does to the
    object, by whether the scene honours the contract. *)
Lemma explore_step_outcome (self : ExploreAllObjects.t num) state action_str :
  let scene := objects (metadata state) in
  let targets := ExploreAllObjects.target_objects self in
  let found := ExploreAllObjects.discoverd self in
  (Forall (is_target targets) scene ∧
   ∃ reward done,
     ExploreAllObjects.transition_reward state action_str self =
     (Ok (reward, done),
      ExploreAllObjects.set_discoverd (found ∪ visible_names scene) self)) ∨
  (∃ before stranger after,
     scene = before ++ stranger :: after ∧
     Forall (is_target targets) before ∧ ¬ is_target targets stranger ∧
     ExploreAllObjects.transition_reward state action_str self =
     (Raise AssertionError,
      ExploreAllObjects.set_discoverd (found ∪ visible_names before) self)).
Proof.
  simpl.
  destruct (first_stranger (ExploreAllObjects.target_objects self)
              (objects (metadata state)))
    as [Hall | (before & stranger & after & Hscene & Hbefore & Hstranger)].
  - left. split; [done|].
    unfold ExploreAllObjects.transition_reward. run_method.
    destruct (loop_over_targets (objects (metadata state))
                (BaseTask.movement_reward (ExploreAllObjects.base self)) self Hall)
      as [reward ->].
    simpl. case_match; eauto.
  - right. exists before, stranger, after. repeat (split; [done|]).
    unfold ExploreAllObjects.transition_reward. run_method.
    by rewrite Hscene, loop_until_stranger.
Qed.

(** C2, as amended.  A call of [transition_reward] on a [PickUpTask]
    returns, having stored the inventory; on a
    [PickUpAndFindReceptacleTask] it does the same or raises and leaves the
    object as it was.  On an [ExploreAllObjects] it returns with every
    visible name added to [discoverd], or raises the assertion error with
    the visible names that precede the offending object already added;
    nothing else changes. *)
Theorem transition_reward_effect :
  (∀ (self : PickUpTask.t num) state action_str,
     ∃ reward done,
       PickUpTask.transition_reward state action_str self =
       (Ok (reward, done),
        PickUpTask.set_prev_inventory (inventoryObjects (metadata state)) self)) ∧
  (∀ (self : PickUpAndFindReceptacleTask.t num) state action_str,
     (∃ reward done,
        PickUpAndFindReceptacleTask.transition_reward state action_str self =
        (Ok (reward, done),
         PickUpAndFindReceptacleTask.set_prev_inventory
           (inventoryObjects (metadata state)) self)) ∨
     PickUpAndFindReceptacleTask.transition_reward state action_str self =
     (Raise TypeError, self)) ∧
  (∀ (self : ExploreAllObjects.t num) state action_str,
     (Forall (is_target (ExploreAllObjects.target_objects self))
        (objects (metadata state)) ∧
      ∃ reward done,
        ExploreAllObjects.transition_reward state action_str self =
        (Ok (reward, done),
         ExploreAllObjects.set_discoverd
           (ExploreAllObjects.discoverd self ∪
            visible_names (objects (metadata state))) self)) ∨
     (∃ before stranger after,
        objects (metadata state) = before ++ stranger :: after ∧
        Forall (is_target (ExploreAllObjects.target_objects self)) before ∧
        ¬ is_target (ExploreAllObjects.target_objects self) stranger ∧
        ExploreAllObjects.transition_reward state action_str self =
        (Raise AssertionError,
         ExploreAllObjects.set_discoverd
           (ExploreAllObjects.discoverd self ∪ visible_names before) self))).
Proof.
  split; [|split].
  - intros self state action_str.
    destruct (pick_up_step_outcome self state action_str) as [reward ->]. eauto.
  - intros self state action_str.
    destruct (receptacle_step_outcome self state action_str) as [-> | [reward ->]];
      eauto.
  - intros self state action_str. apply explore_step_outcome.
Qed.

(** C7.  With [max_episode_length] set, not zero and reached by [step_num],
    a call on a [PickUpTask] returns [done = True] whatever the inventories
    are; a call on a [PickUpAndFindReceptacleTask] does so whenever the
    descriptors the step subscripts are present: the receptacle on a
    put-down edge, the opened object on a close.  (Where one is absent the
    call raises before it reaches the test on the episode length.) *)
Theorem done_when_episode_length_reached :
  (∀ (self : PickUpTask.t num) state action_str n,
     BaseTask.max_episode_length (PickUpTask.base self) = Some n →
     n ≠ 0 →
     n ≤ BaseTask.step_num (PickUpTask.base self) →
     ∃ reward,
       PickUpTask.transition_reward state action_str self =
       (Ok (reward, true),
        PickUpTask.set_prev_inventory (inventoryObjects (metadata state)) self)) ∧
  (∀ (self : PickUpAndFindReceptacleTask.t num) state action_str n,
     BaseTask.max_episode_length (PickUpAndFindReceptacleTask.base self) = Some n →
     n ≠ 0 →
     n ≤ BaseTask.step_num (PickUpAndFindReceptacleTask.base self) →
     (PickUpAndFindReceptacleTask.object_put_down self
        (inventoryObjects (metadata state)) = Ok true →
      is_Some (lastObjectPutReceptacle (metadata state))) →
     (PickUpAndFindReceptacleTask.object_closed state action_str = true →
      is_Some (lastObjectOpened (metadata state))) →
     ∃ reward,
       PickUpAndFindReceptacleTask.transition_reward state action_str self =
       (Ok (reward, true),
        PickUpAndFindReceptacleTask.set_prev_inventory
          (inventoryObjects (metadata state)) self)).
Proof.
  split.
  - intros self state action_str n Hn Hnz Hle.
    destruct (pick_up_step_outcome self state action_str) as [reward ->].
    rewrite (episode_length_reached_true _ n) by done. eauto.
  - intros self state action_str n Hn Hnz Hle Hput Hclose.
    destruct (receptacle_step_returns self state action_str Hput Hclose)
      as [reward ->].
    rewrite (episode_length_reached_true _ n) by done. eauto.
Qed.

(** C3.  On a put-down edge with the receptacle recorded, the bonus is the
    entry of [target_receptacles] for the type of the receptacle, [0] when
    it has none, and the call returns.  With no receptacle recorded the
    call does not return a bonus of [0]: it raises [TypeError]. *)
Theorem put_down_receptacle_bonus :
  (∀ (self : PickUpAndFindReceptacleTask.t num) state receptacle,
     PickUpAndFindReceptacleTask.object_put_down self
       (inventoryObjects (metadata state)) = Ok true →
     lastObjectPutReceptacle (metadata state) = Some receptacle →
     PickUpAndFindReceptacleTask.transition_reward state None self =
     (Ok (nadd (BaseTask.movement_reward (PickUpAndFindReceptacleTask.base self))
            (dict_get (PickUpAndFindReceptacleTask.target_receptacles self)
               (objectType receptacle) (of_int 0)),
          BaseTask.episode_length_reached (PickUpAndFindReceptacleTask.base self)),
      PickUpAndFindReceptacleTask.set_prev_inventory [] self)) ∧
  (∀ (self : PickUpAndFindReceptacleTask.t num) state action_str,
     PickUpAndFindReceptacleTask.object_put_down self
       (inventoryObjects (metadata state)) = Ok true →
     lastObjectPutReceptacle (metadata state) = None →
     PickUpAndFindReceptacleTask.transition_reward state action_str self =
     (Raise TypeError, self)).
Proof.
  split.
  - intros. by apply put_down_bonus.
  - intros. by apply put_down_without_receptacle_raises.
Qed.
End StepOutcomes.

Section Bonuses.
Context {num : Type} `{!PyNumber num}.
Import PickUpAndFindReceptacleTask.

(** A task whose targets are an apple ([5]) and a fridge (put: [3],
    open: [2]), at step 1 of an episode of default length. *)
Let a_task (prev : list ThorObject) : PickUpAndFindReceptacleTask.t num := {|
  base := {|
    BaseTask.task_config := {|
      opt_max_episode_length := None;
      opt_movement_reward := None;
      task := {|
        opt_target_objects := Some {[ "Apple" := of_int 5 ]};
        opt_target_receptacles := Some {[ "Fridge" := of_int 3 ]};
        opt_target_receptacles_need_open := Some {[ "Fridge" := of_int 2 ]};
      |};
      pickup_objects := ["Apple"];
    |};
    BaseTask.max_episode_length := Some 1000;
    BaseTask.movement_reward := float_neg_0_01;
    BaseTask.step_num := 1;
  |};
  target_objects := {[ "Apple" := of_int 5 ]};
  target_receptacles := {[ "Fridge" := of_int 3 ]};
  target_receptacles_need_open := {[ "Fridge" := of_int 2 ]};
  prev_inventory := prev;
|}.

Let apple := Examples.thing "Apple" true.
Let fridge := Examples.thing "Fridge" true.

(** C8, as amended.  The pick-up and put-down tests exclude each other, and
    so do the open and close tests; every other pair of bonuses can be
    earned in one step: pick-up with open, pick-up with close, put-down
    with open, put-down with close. *)
Theorem bonuses_of_one_step :
  (∀ (self : PickUpAndFindReceptacleTask.t num) curr_inventory,
     ¬ (object_picked_up self curr_inventory = Ok true ∧
        object_put_down self curr_inventory = Ok true)) ∧
  (∀ state action_str,
     ¬ (object_opened state action_str = true ∧
        object_closed state action_str = true)) ∧
  (∃ (self : PickUpAndFindReceptacleTask.t num) state action_str,
     object_picked_up self (inventoryObjects (metadata state)) = Ok true ∧
     object_opened state action_str = true ∧
     (transition_reward state action_str self).1 =
     Ok (nadd (nadd float_neg_0_01 (of_int 5)) (of_int 2), false)) ∧
  (∃ (self : PickUpAndFindReceptacleTask.t num) state action_str,
     object_picked_up self (inventoryObjects (metadata state)) = Ok true ∧
     object_closed state action_str = true ∧
     (transition_reward state action_str self).1 =
     Ok (nadd (nadd float_neg_0_01 (of_int 5)) (nneg (of_int 2)), false)) ∧
  (∃ (self : PickUpAndFindReceptacleTask.t num) state action_str,
     object_put_down self (inventoryObjects (metadata state)) = Ok true ∧
     object_opened state action_str = true ∧
     (transition_reward state action_str self).1 =
     Ok (nadd (nadd float_neg_0_01 (of_int 3)) (of_int 2), false)) ∧
  (∃ (self : PickUpAndFindReceptacleTask.t num) state action_str,
     object_put_down self (inventoryObjects (metadata state)) = Ok true ∧
     object_closed state action_str = true ∧
     (transition_reward state action_str self).1 =
     Ok (nadd (nadd float_neg_0_01 (of_int 3)) (nneg (of_int 2)), false)).
Proof.
  repeat split.
  - intros self curr [Hup Hdown]. exact (picked_up_put_down_exclusive _ _ Hup Hdown).
  - intros state action_str [Hopen Hclose].
    exact (object_opened_closed_exclusive _ _ Hopen Hclose).
  - exists (a_task []),
      (Examples.snapshot_of [apple] None (Some fridge) None []),
      (Some "OpenObject").
    repeat split; reflexivity.
  - exists (a_task []),
      (Examples.snapshot_of [apple] None (Some fridge) (Some fridge) []),
      (Some "CloseObject").
    repeat split; reflexivity.
  - exists (a_task [apple]),
      (Examples.snapshot_of [] (Some fridge) (Some fridge) None []),
      (Some "OpenObject").
    repeat split; reflexivity.
  - exists (a_task [apple]),
      (Examples.snapshot_of [] (Some fridge) (Some fridge) (Some fridge) []),
      (Some "CloseObject").
    repeat split; reflexivity.
Qed.
End Bonuses.

Section Construction.
Context {num : Type} `{!PyNumber num}.
Implicit Types (kwargs : Kwargs num) (targets : gmap string num).

Lemma elem_of_keys targets obj : obj ∈ keys targets ↔ is_Some (targets !! obj).
Proof.
  unfold keys. rewrite list_elem_of_fmap. split.
  - intros ([k v] & -> & Hkv%elem_of_map_to_list). by exists v.
  - intros [v Hv]. exists (obj, v). by rewrite elem_of_map_to_list.
Qed.

(** The list of missing objects is not empty exactly when some key of the
    targets is not pickupable. *)
Lemma missing_objects_not_empty kwargs targets :
  bool_of_list (filter (λ obj, obj ∉ pickup_objects kwargs) (keys targets)) = true ↔
  ∃ obj, is_Some (targets !! obj) ∧ obj ∉ pickup_objects kwargs.
Proof.
  split.
  - destruct (filter _ _) as [|obj rest] eqn:E; [done|]. intros _.
    assert (obj ∈ filter (λ obj, obj ∉ pickup_objects kwargs) (keys targets)) as Hin.
    { rewrite E. left. }
    apply list_elem_of_filter in Hin as [Hmiss Hkey].
    exists obj. by rewrite <-elem_of_keys.
  - intros (obj & Hkey%elem_of_keys & Hmiss).
    assert (obj ∈ filter (λ obj, obj ∉ pickup_objects kwargs) (keys targets)) as Hin.
    { by apply list_elem_of_filter. }
    by destruct (filter _ _); [apply elem_of_nil in Hin|].
Qed.

(** The constructors with [target_objects] unset: the subscript in the loop
    header raises before the default of [get] is reached. *)
Lemma construction_without_target_objects kwargs :
  opt_target_objects (task kwargs) = None →
  PickUpTask.__init__ kwargs = Raise (KeyError "target_objects") ∧
  PickUpAndFindReceptacleTask.__init__ kwargs = Raise (KeyError "target_objects").
Proof.
  intros Hunset.
  unfold PickUpTask.__init__, PickUpAndFindReceptacleTask.__init__, task_target_objects.
  by rewrite Hunset.
Qed.

(** With [target_objects] set to pickupable types, the receptacle options
    left unset default to empty dicts. *)
Lemma construction_defaults kwargs targets :
  opt_target_objects (task kwargs) = Some targets →
  (∀ obj, is_Some (targets !! obj) → obj ∈ pickup_objects kwargs) →
  opt_target_receptacles (task kwargs) = None →
  opt_target_receptacles_need_open (task kwargs) = None →
  PickUpAndFindReceptacleTask.__init__ kwargs = Ok {|
    PickUpAndFindReceptacleTask.base := BaseTask.__init__ kwargs;
    PickUpAndFindReceptacleTask.target_objects := targets;
    PickUpAndFindReceptacleTask.target_receptacles := ∅;
    PickUpAndFindReceptacleTask.target_receptacles_need_open := ∅;
    PickUpAndFindReceptacleTask.prev_inventory := [];
  |}.
Proof.
  intros Hset Hvalid Hrec Hopen.
  unfold PickUpAndFindReceptacleTask.__init__, task_target_objects.
  rewrite Hset, Hrec, Hopen. simpl.
  destruct (bool_of_list _) eqn:E; [|done].
  apply missing_objects_not_empty in E as (obj & Hkey & Hmiss).
  by destruct Hmiss; apply Hvalid.
Qed.

(** C5.  Each of the two constructors raises [InvalidTaskParams] exactly
    when [target_objects] is configured with a key that is not a member of
    [pickup_objects]; the error lists the keys that are not.  A constructor
    that raises yields no task. *)
Theorem invalid_task_params_iff kwargs :
  let invalid :=
    ∃ targets obj,
      opt_target_objects (task kwargs) = Some targets ∧
      is_Some (targets !! obj) ∧ obj ∉ pickup_objects kwargs in
  ((∃ missing, PickUpTask.__init__ kwargs = Raise (InvalidTaskParams missing)) ↔
   invalid) ∧
  ((∃ missing,
      PickUpAndFindReceptacleTask.__init__ kwargs = Raise (InvalidTaskParams missing)) ↔
   invalid) ∧
  (∀ missing,
     PickUpTask.__init__ kwargs = Raise (InvalidTaskParams missing) ∨
     PickUpAndFindReceptacleTask.__init__ kwargs = Raise (InvalidTaskParams missing) →
     ∃ targets,
       opt_target_objects (task kwargs) = Some targets ∧
       missing = filter (λ obj, obj ∉ pickup_objects kwargs) (keys targets)) ∧
  (∀ e, PickUpTask.__init__ kwargs = Raise e →
        ∀ self, PickUpTask.__init__ kwargs ≠ Ok self) ∧
  (∀ e, PickUpAndFindReceptacleTask.__init__ kwargs = Raise e →
        ∀ self, PickUpAndFindReceptacleTask.__init__ kwargs ≠ Ok self).
Proof.
  simpl.
  unfold PickUpTask.__init__, PickUpAndFindReceptacleTask.__init__, task_target_objects.
  destruct (opt_target_objects (task kwargs)) as [targets|] eqn:Hset; simpl.
  - pose proof (missing_objects_not_empty kwargs targets) as Hmissing.
    destruct (bool_of_list _) eqn:E.
    + apply proj1 in Hmissing. destruct Hmissing as (obj & Hkey & Hmiss); [done|].
      repeat split; try (intros _; by eauto 6); try done.
      intros missing [? | ?]; simplify_eq; eauto.
    + repeat split; try (by intros [? ?]); try done.
      * intros (targets' & obj & ? & Hkey & Hmiss). simplify_eq.
        assert (false = true) by (apply Hmissing; eauto). done.
      * intros (targets' & obj & ? & Hkey & Hmiss). simplify_eq.
        assert (false = true) by (apply Hmissing; eauto). done.
      * by intros missing [? | ?].
  - repeat split; try (by intros [? ?]); try (by intros (? & ? & ? & _)); try done.
    by intros missing [? | ?].
Qed.
End Construction.

Section Replay.
Context {num T : Type} `{!Task num T}.

(** If neither the owner's advance of [step_num] nor a call leaves a trace
    that [reset] does not erase, then no sequence of calls does. *)
Lemma after_reset_feed (pre : list call) :
  (∀ n (self : T), after_reset (advance n self) = after_reset self) →
  (∀ state action_str (self : T),
     after_reset (task_transition_reward state action_str self).2 = after_reset self) →
  ∀ self : T, after_reset (feed pre self).2 = after_reset self.
Proof.
  intros Hadvance Hcall.
  induction pre as [|c rest IH]; intros self; simpl; [done|].
  pose proof (Hcall (snapshot c) (last_action c) (advance (ticks c) self)) as Hc.
  destruct (task_transition_reward _ _ _) as [[rd | e] self']; simpl in *.
  - specialize (IH self'). destruct (feed rest self') as [[out err] self''].
    simpl in *. by rewrite IH, Hc, Hadvance.
  - by rewrite Hc, Hadvance.
Qed.
End Replay.

Section Reset.
Context {num : Type} `{!PyNumber num}.

Lemma pick_up_reset_erases_call state action_str (self : PickUpTask.t num) :
  after_reset (task_transition_reward state action_str self).2 = after_reset self.
Proof.
  simpl. by destruct (pick_up_step_outcome self state action_str) as [reward ->].
Qed.

Lemma receptacle_reset_erases_call state action_str
    (self : PickUpAndFindReceptacleTask.t num) :
  after_reset (task_transition_reward state action_str self).2 = after_reset self.
Proof.
  simpl.
  by destruct (receptacle_step_outcome self state action_str) as [-> | [reward ->]].
Qed.

Lemma explore_reset_erases_call state action_str (self : ExploreAllObjects.t num) :
  after_reset (task_transition_reward state action_str self).2 = after_reset self.
Proof.
  simpl.
  by destruct (explore_step_outcome self state action_str)
    as [(_ & reward & done & ->) | (before & stranger & after & _ & _ & _ & ->)].
Qed.

(** A task just constructed is what [reset] makes of it. *)
Lemma pick_up_fresh_is_reset kwargs (fresh : PickUpTask.t num) :
  PickUpTask.__init__ kwargs = Ok fresh → after_reset fresh = fresh.
Proof.
  unfold PickUpTask.__init__. destruct (task_target_objects kwargs); [simpl|done].
  case_match; [done|]. by intros [= <-].
Qed.

Lemma receptacle_fresh_is_reset kwargs (fresh : PickUpAndFindReceptacleTask.t num) :
  PickUpAndFindReceptacleTask.__init__ kwargs = Ok fresh → after_reset fresh = fresh.
Proof.
  unfold PickUpAndFindReceptacleTask.__init__.
  destruct (task_target_objects kwargs); [simpl|done].
  case_match; [done|]. by intros [= <-].
Qed.

Lemma explore_fresh_is_reset kwargs (fresh : ExploreAllObjects.t num) :
  ExploreAllObjects.__init__ kwargs = Ok fresh → after_reset fresh = fresh.
Proof. unfold ExploreAllObjects.__init__. by intros [= <-]. Qed.

(** C9.  Take a task constructed from [kwargs] and used for any sequence
    [pre] of calls, the owner advancing [step_num] between them.  After
    [reset()], a sequence [calls] yields what it yields on the task as
    constructed: the same (reward, done) pairs, the same exception if one
    ends the sequence, the same final object.  This holds for the three
    classes. *)
Theorem reset_replays_fresh_trajectory (kwargs : Kwargs num) (pre calls : list call) :
  (∀ fresh : PickUpTask.t num,
     PickUpTask.__init__ kwargs = Ok fresh →
     feed calls (after_reset (feed pre fresh).2) = feed calls fresh) ∧
  (∀ fresh : PickUpAndFindReceptacleTask.t num,
     PickUpAndFindReceptacleTask.__init__ kwargs = Ok fresh →
     feed calls (after_reset (feed pre fresh).2) = feed calls fresh) ∧
  (∀ fresh : ExploreAllObjects.t num,
     ExploreAllObjects.__init__ kwargs = Ok fresh →
     feed calls (after_reset (feed pre fresh).2) = feed calls fresh).
Proof.
  split; [|split]; intros fresh Hfresh.
  - rewrite after_reset_feed.
    + by rewrite (pick_up_fresh_is_reset kwargs).
    + done.
    + apply pick_up_reset_erases_call.
  - rewrite after_reset_feed.
    + by rewrite (receptacle_fresh_is_reset kwargs).
    + done.
    + apply receptacle_reset_erases_call.
  - rewrite after_reset_feed.
    + by rewrite (explore_fresh_is_reset kwargs).
    + done.
    + apply explore_reset_erases_call.
Qed.
End Reset.

(** * The properties on concrete inputs *)

Import Examples.

(** Closing the fridge ([2]) after the cabinet ([7]) was the last object
    opened costs the reward of the cabinet: [-0.01 - 7]. *)
Lemma close_subtracts_reward_of_last_opened_witness :
  lastObjectClosed (metadata closed_fridge) = Some (thing "Fridge" true) ∧
  lastObjectOpened (metadata closed_fridge) = Some (thing "Cabinet" true) ∧
  PickUpAndFindReceptacleTask.transition_reward closed_fridge (Some "CloseObject")
    (receptacle_task 1 []) =
  (Ok ((-701 # 100)%Q, false), receptacle_task 1 []).
Proof.
  split; [reflexivity|]. split; [reflexivity|].
  exact (close_subtracts_reward_of_last_opened (receptacle_task 1 []) closed_fridge
           (thing "Fridge" true) (thing "Cabinet" true) eq_refl eq_refl).
Defined.

(** Closing the fridge when nothing was opened raises. *)
Lemma close_with_nothing_opened_raises_witness :
  lastObjectClosed (metadata closed_never_opened) = Some (thing "Fridge" true) ∧
  lastObjectOpened (metadata closed_never_opened) = None ∧
  PickUpAndFindReceptacleTask.transition_reward closed_never_opened
    (Some "CloseObject") (receptacle_task 1 []) =
  (Raise TypeError, receptacle_task 1 []).
Proof.
  split; [reflexivity|]. split; [reflexivity|].
  exact (close_with_nothing_opened_raises (receptacle_task 1 []) closed_never_opened
           (thing "Fridge" true) eq_refl eq_refl).
Defined.

(** C2, the claim as stated fails: the scene shows the mug, then an object
    that is no target; the call raises the assertion error and the mug has
    joined [discoverd], which was empty before the call. *)
Lemma explore_raise_keeps_discoveries :
  ExploreAllObjects.transition_reward scene_mug_then_stranger None (explore_task 1 ∅) =
  (Raise AssertionError, explore_task 1 {[ "Mug" ]}) ∧
  ExploreAllObjects.discoverd (explore_task 1 {[ "Mug" ]}) ≠
  ExploreAllObjects.discoverd (explore_task 1 ∅).
Proof.
  split; [by vm_compute|].
  simpl. intros Heq. assert ("Mug" ∈ (∅ : gset string)) as Hin; [|set_solver].
  rewrite <-Heq. set_solver.
Qed.

(** C6, the claim as stated fails: the apple is discovered, the mug ([1])
    is the one target left and the scene shows it, at step 3 of an episode of
    length 3.  The call returns [-0.01 + 1] and [done = True]: the [50] of
    the claim is not added. *)
Lemma last_discovery_at_episode_length :
  S (size (ExploreAllObjects.discoverd (explore_task 3 {[ "Apple" ]}))) =
  size (ExploreAllObjects.target_objects (explore_task 3 {[ "Apple" ]})) ∧
  ExploreAllObjects.target_objects (explore_task 3 {[ "Apple" ]}) !! "Mug" = Some 1%Q ∧
  ("Mug" ∉ ExploreAllObjects.discoverd (explore_task 3 {[ "Apple" ]})) ∧
  thing "Mug" true ∈ objects (metadata scene_mug_visible) ∧
  (ExploreAllObjects.transition_reward scene_mug_visible None
     (explore_task 3 {[ "Apple" ]})).1 =
  Ok (nadd float_neg_0_01 1%Q, true) ∧
  (ExploreAllObjects.transition_reward scene_mug_visible None
     (explore_task 3 {[ "Apple" ]})).1 ≠
  Ok (nadd (nadd float_neg_0_01 1%Q) (of_int 50), true).
Proof.
  split; [by vm_compute|]. split; [by vm_compute|].
  split; [simpl; set_solver|].
  split; [simpl; set_solver|].
  split; [by vm_compute|]. by vm_compute.
Qed.

(** The same scene one step earlier earns the [50]. *)
Lemma last_discovery_reward_witness :
  ExploreAllObjects.transition_reward scene_mug_visible None
    (explore_task 2 {[ "Apple" ]}) =
  (Ok ((5099 # 100)%Q, true),
   ExploreAllObjects.set_discoverd ({[ "Mug" ]} ∪ {[ "Apple" ]})
     (explore_task 2 {[ "Apple" ]})).
Proof.
  refine (last_discovery_reward (explore_task 2 {[ "Apple" ]}) scene_mug_visible None
            "Mug" 1%Q _ _ _ _ _ _).
  - simpl. set_solver.
  - reflexivity.
  - reflexivity.
  - simpl. set_solver.
  - repeat constructor; eexists; reflexivity.
  - right. left. split; reflexivity.
Defined.

(** C7 at the failing input: at step 5 of an episode of length 3 the apple
    leaves the hand and no receptacle is recorded; the call raises and
    returns no [done].  So does the call that closes the fridge when nothing
    was opened. *)
Lemma put_down_at_episode_length_raises :
  BaseTask.max_episode_length
    (PickUpAndFindReceptacleTask.base (receptacle_task 5 [thing "Apple" true]))
  = Some 3 ∧
  3 ≤ BaseTask.step_num
        (PickUpAndFindReceptacleTask.base (receptacle_task 5 [thing "Apple" true])) ∧
  PickUpAndFindReceptacleTask.transition_reward put_nowhere None
    (receptacle_task 5 [thing "Apple" true]) =
  (Raise TypeError, receptacle_task 5 [thing "Apple" true]) ∧
  PickUpAndFindReceptacleTask.transition_reward closed_never_opened
    (Some "CloseObject") (receptacle_task 5 []) =
  (Raise TypeError, receptacle_task 5 []).
Proof.
  split; [reflexivity|]. split; [discriminate|]. split; reflexivity.
Qed.

(** At step 3 of an episode of length 3, picking up the apple and putting it
    into the fridge both return [done = True]. *)
Lemma done_when_episode_length_reached_witness :
  (∃ reward,
     PickUpTask.transition_reward holding_apple None (pick_up_task 3 []) =
     (Ok (reward, true), pick_up_task 3 [thing "Apple" true])) ∧
  (∃ reward,
     PickUpAndFindReceptacleTask.transition_reward put_in_fridge None
       (receptacle_task 3 [thing "Apple" true]) =
     (Ok (reward, true), receptacle_task 3 [])).
Proof.
  split.
  - apply (proj1 (@done_when_episode_length_reached Q Q_number)
             (pick_up_task 3 []) holding_apple None 3);
      [reflexivity | discriminate | discriminate].
  - apply (proj2 (@done_when_episode_length_reached Q Q_number)
             (receptacle_task 3 [thing "Apple" true]) put_in_fridge None 3);
      [reflexivity | discriminate | discriminate | by eexists | discriminate].
Defined.

(** C3 at the failing input: the apple leaves the hand and no receptacle is
    recorded; the call raises.  With the fridge recorded it earns [3]. *)
Lemma put_down_receptacle_bonus_witness :
  PickUpAndFindReceptacleTask.transition_reward put_nowhere None
    (receptacle_task 1 [thing "Apple" true]) =
  (Raise TypeError, receptacle_task 1 [thing "Apple" true]) ∧
  PickUpAndFindReceptacleTask.transition_reward put_in_fridge None
    (receptacle_task 1 [thing "Apple" true]) =
  (Ok ((299 # 100)%Q, false), receptacle_task 1 []).
Proof.
  split.
  - exact (proj2 (@put_down_receptacle_bonus Q Q_number)
             (receptacle_task 1 [thing "Apple" true]) put_nowhere None
             eq_refl eq_refl).
  - exact (proj1 (@put_down_receptacle_bonus Q Q_number)
             (receptacle_task 1 [thing "Apple" true]) put_in_fridge
             (thing "Fridge" true) eq_refl eq_refl).
Defined.

(** C4 at the failing input: with [target_objects] unset both constructors
    raise [KeyError]; no task with empty targets is built. *)
Theorem construction_with_target_objects_unset :
  opt_target_objects (task kwargs_unset) = None ∧
  PickUpTask.__init__ kwargs_unset = Raise (KeyError "target_objects") ∧
  PickUpAndFindReceptacleTask.__init__ kwargs_unset = Raise (KeyError "target_objects").
Proof.
  split; [reflexivity|].
  apply construction_without_target_objects. reflexivity.
Qed.

(** A sofa among the targets cannot be picked up: both constructors raise
    [InvalidTaskParams]. *)
Lemma invalid_task_params_iff_witness :
  (∃ missing, PickUpTask.__init__ kwargs_invalid = Raise (InvalidTaskParams missing)) ∧
  (∃ missing,
     PickUpAndFindReceptacleTask.__init__ kwargs_invalid =
     Raise (InvalidTaskParams missing)).
Proof.
  assert (∃ (targets : gmap string Q) obj,
            opt_target_objects (task kwargs_invalid) = Some targets ∧
            is_Some (targets !! obj) ∧ obj ∉ pickup_objects kwargs_invalid) as Hinvalid.
  { eexists _, "Sofa". split; [reflexivity|]. split; [by eexists|]. simpl. set_solver. }
  destruct (invalid_task_params_iff kwargs_invalid) as (Hpick & Hreceptacle & _).
  split; [by apply Hpick | by apply Hreceptacle].
Defined.

(** C8, the claim as stated fails: no task and no inventory make the pick-up
    test and the put-down test both true. *)
Lemma pick_up_and_put_down_never_together :
  (∃ (self : PickUpAndFindReceptacleTask.t Q) (curr_inventory : list ThorObject),
     PickUpAndFindReceptacleTask.object_picked_up self curr_inventory = Ok true ∧
     PickUpAndFindReceptacleTask.object_put_down self curr_inventory = Ok true)
  ↔ False.
Proof.
  split; [|done].
  intros (self & curr & Hup & Hdown).
  exact (picked_up_put_down_exclusive self curr Hup Hdown).
Qed.

(** A task used for two steps, reset, and fed two calls, against the task
    as constructed. *)
Lemma reset_replays_fresh_trajectory_witness :
  let pre := [ {| ticks := 1; snapshot := holding_apple; last_action := None |};
               {| ticks := 1; snapshot := put_in_fridge; last_action := None |} ] in
  let calls := [ {| ticks := 1; snapshot := holding_apple_fridge_open;
                    last_action := Some "OpenObject" |};
                 {| ticks := 1; snapshot := scene_mug_visible; last_action := None |} ] in
  PickUpTask.__init__ kwargs_full = Ok (pick_up_task 0 []) ∧
  feed calls (after_reset (feed pre (pick_up_task 0 [])).2) =
  feed calls (pick_up_task 0 []) ∧
  PickUpAndFindReceptacleTask.__init__ kwargs_full = Ok (receptacle_task 0 []) ∧
  feed calls (after_reset (feed pre (receptacle_task 0 [])).2) =
  feed calls (receptacle_task 0 []) ∧
  ExploreAllObjects.__init__ kwargs_full = Ok (explore_task 0 ∅) ∧
  feed calls (after_reset (feed pre (explore_task 0 ∅)).2) =
  feed calls (explore_task 0 ∅).
Proof.
  intros pre calls.
  pose proof (reset_replays_fresh_trajectory kwargs_full pre calls)
    as (Hpick & Hreceptacle & Hexplore).
  split; [reflexivity|]. split; [exact (Hpick _ eq_refl)|].
  split; [reflexivity|]. split; [exact (Hreceptacle _ eq_refl)|].
  split; [reflexivity|]. exact (Hexplore _ eq_refl).
Defined.

(** * Further properties of the code *)

Section PickUpReward.
Context {num : Type} `{!PyNumber num}.
Implicit Types (self : PickUpTask.t num) (state : Event).

Lemma dict_in_lookup {V} (k : string) (d : gmap string V) :
  dict_in k d = match d !! k with Some _ => true | None => false end.
Proof.
  unfold dict_in. destruct (d !! k) as [v|].
  - by rewrite bool_decide_eq_true_2.
  - rewrite bool_decide_eq_false_2; [done|]. by intros [? ?].
Qed.

(** X1.  [PickUpTask.transition_reward] pays the reward of a target exactly
    on the edge from an empty hand to a hand whose first object has a
    target type; every other step earns the movement reward alone.  The
    default [0] of [get] is never added. *)
Theorem pick_up_reward self state action_str :
  PickUpTask.transition_reward state action_str self =
  (Ok (match PickUpTask.prev_inventory self, inventoryObjects (metadata state) with
       | [], o :: _ =>
           match PickUpTask.target_objects self !! objectType o with
           | Some r => nadd (BaseTask.movement_reward (PickUpTask.base self)) r
           | None => BaseTask.movement_reward (PickUpTask.base self)
           end
       | _, _ => BaseTask.movement_reward (PickUpTask.base self)
       end,
       BaseTask.episode_length_reached (PickUpTask.base self)),
   PickUpTask.set_prev_inventory (inventoryObjects (metadata state)) self).
Proof.
  unfold PickUpTask.transition_reward, PickUpTask.object_picked_up. run_method.
  destruct (PickUpTask.prev_inventory self) as [|held prev],
    (inventoryObjects (metadata state)) as [|o curr]; simpl;
    try by destruct (BaseTask.episode_length_reached _).
  rewrite dict_in_lookup. unfold dict_get.
  destruct (PickUpTask.target_objects self !! objectType o); simpl;
    by destruct (BaseTask.episode_length_reached _).
Qed.

(** X2.  Whether a call reports [done] depends on the episode length alone:
    a [PickUpTask] call returns [done = True] exactly when
    [max_episode_length] is an [int] other than [0] that [step_num] has
    reached, and so does every [PickUpAndFindReceptacleTask] call that
    returns.  With [max_episode_length] at [None] or [0] no call ever
    reports [done]. *)
Theorem done_iff_episode_length_reached :
  (∀ self state action_str,
     ∃ reward done,
       (PickUpTask.transition_reward state action_str self).1 = Ok (reward, done) ∧
       (done = true ↔
        ∃ n, BaseTask.max_episode_length (PickUpTask.base self) = Some n ∧
             n ≠ 0 ∧ n ≤ BaseTask.step_num (PickUpTask.base self))) ∧
  (∀ (self : PickUpAndFindReceptacleTask.t num) state action_str reward done,
     (PickUpAndFindReceptacleTask.transition_reward state action_str self).1 =
     Ok (reward, done) →
     (done = true ↔
      ∃ n, BaseTask.max_episode_length (PickUpAndFindReceptacleTask.base self) = Some n ∧
           n ≠ 0 ∧ n ≤ BaseTask.step_num (PickUpAndFindReceptacleTask.base self))).
Proof.
  split.
  - intros self state action_str.
    destruct (pick_up_step_outcome self state action_str) as [reward ->].
    eexists _, _. split; [done|]. simpl. split.
    + apply episode_length_reached_inv.
    + intros (n & ? & ? & ?). by eapply episode_length_reached_true.
  - intros self state action_str reward done.
    destruct (receptacle_step_outcome self state action_str) as [-> | [reward' ->]];
      simpl; [done|].
    intros [= _ <-]. split.
    + apply episode_length_reached_inv.
    + intros (n & ? & ? & ?). by eapply episode_length_reached_true.
Qed.
End PickUpReward.

Section ReceptacleActions.
Context {num : Type} `{!PyNumber num}.
Import PickUpAndFindReceptacleTask.
Implicit Types (self : PickUpAndFindReceptacleTask.t num) (state : Event).

Lemma object_opened_other_action state action_str :
  action_str ≠ Some "OpenObject" → object_opened state action_str = false.
Proof. intros Hne. unfold object_opened. by rewrite bool_decide_eq_false_2. Qed.

Lemma object_closed_other_action state action_str :
  action_str ≠ Some "CloseObject" → object_closed state action_str = false.
Proof. intros Hne. unfold object_closed. by rewrite bool_decide_eq_false_2. Qed.

(** X3.  Only the strings ["OpenObject"] and ["CloseObject"] matter to
    [PickUpAndFindReceptacleTask.transition_reward]: under any other action
    the call does what it does with no action at all. *)
Theorem other_actions_are_ignored self state action_str :
  action_str ≠ Some "OpenObject" →
  action_str ≠ Some "CloseObject" →
  transition_reward state action_str self = transition_reward state None self.
Proof.
  intros Hopen Hclose. unfold transition_reward.
  by rewrite object_opened_other_action, object_closed_other_action,
    object_opened_no_action, object_closed_no_action.
Qed.

(** X4.  In a step whose action is ["OpenObject"] and whose
    [lastObjectOpened] is present, the reward is what the same step earns
    without the action, plus the entry of [target_receptacles_need_open] for
    the type of the opened object ([0] when it has none).  The two guards
    hold: opening with no [lastObjectOpened], and closing with no
    [lastObjectClosed], do what the step does with no action, and do not
    raise on their account. *)
Theorem open_adds_reward_of_last_opened self state :
  (∀ opened,
     lastObjectOpened (metadata state) = Some opened →
     transition_reward state (Some "OpenObject") self =
     match transition_reward state None self with
     | (Ok (reward, done), self') =>
         (Ok (nadd reward
                (dict_get (target_receptacles_need_open self)
                   (objectType opened) (of_int 0)),
              done), self')
     | (Raise e, self') => (Raise e, self')
     end) ∧
  (lastObjectOpened (metadata state) = None →
   transition_reward state (Some "OpenObject") self =
   transition_reward state None self) ∧
  (lastObjectClosed (metadata state) = None →
   transition_reward state (Some "CloseObject") self =
   transition_reward state None self).
Proof.
  split; [|split].
  - intros opened Hopened. unfold transition_reward.
    rewrite object_opened_no_action, object_closed_no_action.
    rewrite (object_closed_other_action state (Some "OpenObject")) by done.
    unfold object_opened. rewrite Hopened.
    rewrite !bool_decide_eq_true_2 by done.
    run_method.
    destruct (object_picked_up self _) as [[] |]; [| |done];
      (destruct (object_put_down self _) as [[] |]; [| |done]);
      try (destruct (index0 (inventoryObjects (metadata state))); [|done]);
      try (destruct (lastObjectPutReceptacle (metadata state)); [|done]);
      simpl; reflexivity.
  - intros Hopened. unfold transition_reward.
    rewrite object_opened_no_action, object_closed_no_action.
    rewrite (object_closed_other_action state (Some "OpenObject")) by done.
    unfold object_opened. rewrite Hopened.
    by rewrite (bool_decide_eq_false_2 (None ≠ None)), andb_false_r by auto.
  - intros Hclosed. unfold transition_reward.
    rewrite object_opened_no_action, object_closed_no_action, object_opened_on_close.
    unfold object_closed. rewrite Hclosed.
    by rewrite (bool_decide_eq_false_2 (None ≠ None)), andb_false_r by auto.
Qed.

(** X5.  Where no put-down edge fires and the action is neither
    ["OpenObject"] nor ["CloseObject"], a [PickUpAndFindReceptacleTask]
    behaves as the [PickUpTask] with the same base, targets and previous
    inventory: the same reward and [done], the same inventory stored. *)
Theorem agrees_with_pick_up_task self state action_str :
  object_put_down self (inventoryObjects (metadata state)) = Ok false →
  action_str ≠ Some "OpenObject" →
  action_str ≠ Some "CloseObject" →
  (transition_reward state action_str self).1 =
  (PickUpTask.transition_reward state action_str (as_pick_up self)).1 ∧
  as_pick_up (transition_reward state action_str self).2 =
  (PickUpTask.transition_reward state action_str (as_pick_up self)).2.
Proof.
  intros Hdown Hopen Hclose.
  unfold transition_reward, PickUpTask.transition_reward.
  rewrite object_opened_other_action, object_closed_other_action by done.
  run_method. rewrite Hdown.
  unfold object_picked_up, PickUpTask.object_picked_up. simpl.
  destruct (prev_inventory self) as [|held prev],
    (inventoryObjects (metadata state)) as [|o curr]; simpl;
    try by destruct (BaseTask.episode_length_reached _).
  rewrite dict_in_lookup. unfold dict_get.
  destruct (target_objects self !! objectType o); simpl;
    by destruct (BaseTask.episode_length_reached _).
Qed.
End ReceptacleActions.

Section Cycles.
Context {num : Type} `{!PyNumber num}.

(** A [PickUpAndFindReceptacleTask] step on the pick-up edge. *)
Lemma receptacle_pick_up_step (self : PickUpAndFindReceptacleTask.t num)
    state action_str o rest r :
  PickUpAndFindReceptacleTask.prev_inventory self = [] →
  inventoryObjects (metadata state) = o :: rest →
  PickUpAndFindReceptacleTask.target_objects self !! objectType o = Some r →
  action_str ≠ Some "OpenObject" →
  action_str ≠ Some "CloseObject" →
  PickUpAndFindReceptacleTask.transition_reward state action_str self =
  (Ok (nadd (BaseTask.movement_reward (PickUpAndFindReceptacleTask.base self)) r,
       BaseTask.episode_length_reached (PickUpAndFindReceptacleTask.base self)),
   PickUpAndFindReceptacleTask.set_prev_inventory (o :: rest) self).
Proof.
  intros Hprev Hinv Hr Hopen Hclose.
  unfold PickUpAndFindReceptacleTask.transition_reward.
  rewrite object_opened_other_action, object_closed_other_action by done.
  unfold PickUpAndFindReceptacleTask.object_picked_up,
    PickUpAndFindReceptacleTask.object_put_down.
  run_method. rewrite Hprev, Hinv. simpl.
  rewrite dict_in_lookup, Hr. unfold dict_get. rewrite Hr. simpl.
  by destruct (BaseTask.episode_length_reached _).
Qed.

(** A [PickUpAndFindReceptacleTask] step on the put-down edge, with the
    receptacle recorded. *)
Lemma receptacle_put_down_step (self : PickUpAndFindReceptacleTask.t num)
    state action_str held prev receptacle :
  PickUpAndFindReceptacleTask.prev_inventory self = held :: prev →
  is_Some (PickUpAndFindReceptacleTask.target_objects self !! objectType held) →
  inventoryObjects (metadata state) = [] →
  lastObjectPutReceptacle (metadata state) = Some receptacle →
  action_str ≠ Some "OpenObject" →
  action_str ≠ Some "CloseObject" →
  PickUpAndFindReceptacleTask.transition_reward state action_str self =
  (Ok (nadd (BaseTask.movement_reward (PickUpAndFindReceptacleTask.base self))
         (dict_get (PickUpAndFindReceptacleTask.target_receptacles self)
            (objectType receptacle) (of_int 0)),
       BaseTask.episode_length_reached (PickUpAndFindReceptacleTask.base self)),
   PickUpAndFindReceptacleTask.set_prev_inventory [] self).
Proof.
  intros Hprev [r Hr] Hinv Hput Hopen Hclose.
  unfold PickUpAndFindReceptacleTask.transition_reward.
  rewrite object_opened_other_action, object_closed_other_action by done.
  unfold PickUpAndFindReceptacleTask.object_picked_up,
    PickUpAndFindReceptacleTask.object_put_down.
  run_method. rewrite Hprev, Hinv, Hput. simpl.
  rewrite dict_in_lookup, Hr. simpl.
  by destruct (BaseTask.episode_length_reached _).
Qed.

(** X6.  A [PickUpTask] pays again after the hand was emptied: picking up a
    target, putting it down and picking up a target again earns the two
    rewards, whatever the owner adds to [step_num] in between; putting down
    earns the movement reward alone. *)
Theorem pick_up_again_pays_again (self : PickUpTask.t num) c1 c2 c3
    o1 rest1 r1 o3 rest3 r3 :
  PickUpTask.prev_inventory self = [] →
  inventoryObjects (metadata (snapshot c1)) = o1 :: rest1 →
  PickUpTask.target_objects self !! objectType o1 = Some r1 →
  inventoryObjects (metadata (snapshot c2)) = [] →
  inventoryObjects (metadata (snapshot c3)) = o3 :: rest3 →
  PickUpTask.target_objects self !! objectType o3 = Some r3 →
  ∃ d1 d2 d3,
    (feed [c1; c2; c3] self).1 =
    ([(nadd (BaseTask.movement_reward (PickUpTask.base self)) r1, d1);
      (BaseTask.movement_reward (PickUpTask.base self), d2);
      (nadd (BaseTask.movement_reward (PickUpTask.base self)) r3, d3)], None).
Proof.
  intros Hprev H1 Hr1 H2 H3 Hr3. simpl.
  unfold PickUpTask.transition_reward, PickUpTask.object_picked_up. run_method.
  rewrite Hprev, H1. simpl. rewrite dict_in_lookup, Hr1. unfold dict_get.
  rewrite Hr1, H2. simpl. rewrite H3. simpl. rewrite dict_in_lookup, Hr3. simpl.
  eauto.
Qed.
End Cycles.

Section ReceptacleCycle.
Context {num : Type} `{!PyNumber num}.

(** X7.  A [PickUpAndFindReceptacleTask] pays for the object, then for the
    place: picking up a target and putting it into a recorded receptacle in
    the next call earns the reward of the object, then the entry of
    [target_receptacles] for the receptacle ([0] when it has none). *)
Theorem pick_up_then_put_down (self : PickUpAndFindReceptacleTask.t num) c1 c2
    o rest r receptacle :
  PickUpAndFindReceptacleTask.prev_inventory self = [] →
  inventoryObjects (metadata (snapshot c1)) = o :: rest →
  PickUpAndFindReceptacleTask.target_objects self !! objectType o = Some r →
  last_action c1 ≠ Some "OpenObject" → last_action c1 ≠ Some "CloseObject" →
  inventoryObjects (metadata (snapshot c2)) = [] →
  lastObjectPutReceptacle (metadata (snapshot c2)) = Some receptacle →
  last_action c2 ≠ Some "OpenObject" → last_action c2 ≠ Some "CloseObject" →
  ∃ d1 d2,
    (feed [c1; c2] self).1 =
    ([(nadd (BaseTask.movement_reward (PickUpAndFindReceptacleTask.base self)) r, d1);
      (nadd (BaseTask.movement_reward (PickUpAndFindReceptacleTask.base self))
         (dict_get (PickUpAndFindReceptacleTask.target_receptacles self)
            (objectType receptacle) (of_int 0)), d2)], None).
Proof.
  intros Hprev H1 Hr Ho1 Hc1 H2 Hput Ho2 Hc2. simpl.
  rewrite (receptacle_pick_up_step _ _ _ o rest r) by done. simpl.
  rewrite (receptacle_put_down_step _ _ _ o rest receptacle) by (simpl; eauto).
  simpl. eauto.
Qed.
End ReceptacleCycle.

Section Frame.
Context {num T : Type} `{!Task num T}.

(** What neither the owner's advance nor a call changes, no sequence of
    calls changes. *)
Lemma feed_frame {X} (g : T → X) :
  (∀ b (self : T), g (task_set_base b self) = g self) →
  (∀ state action_str (self : T),
     g (task_transition_reward state action_str self).2 = g self) →
  ∀ calls (self : T), g (feed calls self).2 = g self.
Proof.
  intros Hset Hcall. induction calls as [|c rest IH]; intros self; simpl; [done|].
  pose proof (Hcall (snapshot c) (last_action c) (advance (ticks c) self)) as Hc.
  destruct (task_transition_reward _ _ _) as [[rd | e] self']; simpl in *.
  - specialize (IH self'). destruct (feed rest self') as [[out err] self''].
    simpl in *. rewrite IH, Hc. apply Hset.
  - rewrite Hc. apply Hset.
Qed.

(** The number of calls a sequence started: those that returned, and the
    one that raised. *)
Lemma feed_base :
  (∀ b (self : T), task_base (task_set_base b self) = b) →
  (∀ state action_str (self : T),
     task_base (task_transition_reward state action_str self).2 = task_base self) →
  ∀ calls (self : T),
    task_base (feed calls self).2 =
    BaseTask.set_step_num
      (BaseTask.step_num (task_base self) +
       total_ticks
         (take (length (feed calls self).1.1 +
                match (feed calls self).1.2 with Some _ => 1 | None => 0 end)%nat
            calls))
      (task_base self).
Proof.
  intros Hset Hcall. induction calls as [|c rest IH]; intros self; simpl.
  { destruct (task_base self). unfold BaseTask.set_step_num. simpl.
    by rewrite Z.add_0_r. }
  pose proof (Hcall (snapshot c) (last_action c) (advance (ticks c) self)) as Hc.
  destruct (task_transition_reward _ _ _) as [[rd | e] self']; simpl in *.
  - specialize (IH self'). destruct (feed rest self') as [[out err] self''].
    simpl in *. rewrite IH, Hc. unfold advance. rewrite Hset.
    unfold BaseTask.set_step_num. simpl. f_equal. lia.
  - rewrite Hc. unfold advance. rewrite Hset.
    unfold BaseTask.set_step_num. simpl. f_equal. lia.
Qed.
End Frame.

Section OwnerAdvances.
Context {num : Type} `{!PyNumber num}.

(** X8.  No call changes [step_num] or the configuration of a task: over any
    sequence of calls, [step_num] grows by what the owner added before the
    calls that were started (those that returned and the one that raised),
    the other base fields and the target dicts stay as they were.  This holds
    for the three classes. *)
Theorem step_num_only_advanced_by_owner (calls : list call) :
  let started (r : list (num * bool) * option exn) : nat :=
    (length r.1 + match r.2 with Some _ => 1 | None => 0 end)%nat in
  (∀ self : PickUpTask.t num,
     PickUpTask.base (feed calls self).2 =
     BaseTask.set_step_num
       (BaseTask.step_num (PickUpTask.base self) +
        total_ticks (take (started (feed calls self).1) calls))
       (PickUpTask.base self) ∧
     PickUpTask.target_objects (feed calls self).2 = PickUpTask.target_objects self) ∧
  (∀ self : PickUpAndFindReceptacleTask.t num,
     PickUpAndFindReceptacleTask.base (feed calls self).2 =
     BaseTask.set_step_num
       (BaseTask.step_num (PickUpAndFindReceptacleTask.base self) +
        total_ticks (take (started (feed calls self).1) calls))
       (PickUpAndFindReceptacleTask.base self) ∧
     PickUpAndFindReceptacleTask.target_objects (feed calls self).2 =
     PickUpAndFindReceptacleTask.target_objects self ∧
     PickUpAndFindReceptacleTask.target_receptacles (feed calls self).2 =
     PickUpAndFindReceptacleTask.target_receptacles self ∧
     PickUpAndFindReceptacleTask.target_receptacles_need_open (feed calls self).2 =
     PickUpAndFindReceptacleTask.target_receptacles_need_open self) ∧
  (∀ self : ExploreAllObjects.t num,
     ExploreAllObjects.base (feed calls self).2 =
     BaseTask.set_step_num
       (BaseTask.step_num (ExploreAllObjects.base self) +
        total_ticks (take (started (feed calls self).1) calls))
       (ExploreAllObjects.base self) ∧
     ExploreAllObjects.target_objects (feed calls self).2 =
     ExploreAllObjects.target_objects self).
Proof.
  assert (Hpick : ∀ state action_str (self : PickUpTask.t num),
            ∃ inv, (task_transition_reward state action_str self).2 =
                   PickUpTask.set_prev_inventory inv self).
  { intros state action_str self. simpl.
    destruct (pick_up_step_outcome self state action_str) as [reward ->]. eauto. }
  assert (Hrec : ∀ state action_str (self : PickUpAndFindReceptacleTask.t num),
            ∃ inv, (task_transition_reward state action_str self).2 =
                   PickUpAndFindReceptacleTask.set_prev_inventory inv self).
  { intros state action_str self. simpl.
    destruct (receptacle_step_outcome self state action_str) as [-> | [reward ->]];
      [exists (PickUpAndFindReceptacleTask.prev_inventory self); by destruct self
      | eauto]. }
  assert (Hexp : ∀ state action_str (self : ExploreAllObjects.t num),
            ∃ found, (task_transition_reward state action_str self).2 =
                     ExploreAllObjects.set_discoverd found self).
  { intros state action_str self. simpl.
    destruct (explore_step_outcome self state action_str)
      as [(_ & reward & done & ->) | (before & stranger & after & _ & _ & _ & ->)];
      eauto. }
  cbv beta zeta. split; [|split]; intros self.
  - split.
    + refine (feed_base (T := PickUpTask.t num) _ _ calls self); [done|].
      intros state action_str self'.
      by destruct (Hpick state action_str self') as [inv ->].
    + refine (feed_frame (T := PickUpTask.t num)
               PickUpTask.target_objects _ _ calls self); [done|].
      intros state action_str self'.
      by destruct (Hpick state action_str self') as [inv ->].
  - split; [|split; [|split]].
    + refine (feed_base (T := PickUpAndFindReceptacleTask.t num) _ _ calls self); [done|].
      intros state action_str self'.
      by destruct (Hrec state action_str self') as [inv ->].
    + refine (feed_frame (T := PickUpAndFindReceptacleTask.t num)
               PickUpAndFindReceptacleTask.target_objects _ _ calls self); [done|].
      intros state action_str self'.
      by destruct (Hrec state action_str self') as [inv ->].
    + refine (feed_frame (T := PickUpAndFindReceptacleTask.t num)
               PickUpAndFindReceptacleTask.target_receptacles _ _ calls self); [done|].
      intros state action_str self'.
      by destruct (Hrec state action_str self') as [inv ->].
    + refine (feed_frame (T := PickUpAndFindReceptacleTask.t num)
               PickUpAndFindReceptacleTask.target_receptacles_need_open _ _ calls self); [done|].
      intros state action_str self'.
      by destruct (Hrec state action_str self') as [inv ->].
  - split.
    + refine (feed_base (T := ExploreAllObjects.t num) _ _ calls self); [done|].
      intros state action_str self'.
      by destruct (Hexp state action_str self') as [found ->].
    + refine (feed_frame (T := ExploreAllObjects.t num)
               ExploreAllObjects.target_objects _ _ calls self); [done|].
      intros state action_str self'.
      by destruct (Hexp state action_str self') as [found ->].
Qed.
End OwnerAdvances.

Section Invariants.
Context {num T : Type} `{!Task num T}.

(** What the owner's advance and every call keep, every sequence of calls
    keeps. *)
Lemma feed_invariant (P : T → Prop) :
  (∀ b (self : T), P self → P (task_set_base b self)) →
  (∀ state action_str (self : T),
     P self → P (task_transition_reward state action_str self).2) →
  ∀ calls (self : T), P self → P (feed calls self).2.
Proof.
  intros Hset Hcall. induction calls as [|c rest IH]; intros self HP; simpl; [done|].
  pose proof (Hcall (snapshot c) (last_action c) (advance (ticks c) self)
                (Hset _ _ HP)) as Hc.
  destruct (task_transition_reward _ _ _) as [[rd | e] self']; simpl in *; [|done].
  specialize (IH self' Hc). by destruct (feed rest self') as [[out err] self''].
Qed.
End Invariants.

Section Discoveries.
Context {num : Type} `{!PyNumber num}.
Import ExploreAllObjects.
Implicit Types (self : ExploreAllObjects.t num) (scene : list ThorObject).

Lemma visible_names_spec scene x :
  x ∈ visible_names scene ↔ ∃ obj, obj ∈ scene ∧ name obj = x ∧ visible obj = true.
Proof.
  induction scene as [|obj rest IH]; simpl.
  - split; [set_solver|]. intros (? & []%elem_of_nil & _).
  - rewrite elem_of_union, IH. split.
    + intros [Hhead | (obj' & ? & ? & ?)].
      * destruct (visible obj) eqn:Hvis; [|set_solver].
        exists obj. split; [left|]. set_solver.
      * exists obj'. split; [by right | done].
    + intros (obj' & [-> | ?]%elem_of_cons & <- & Hvis).
      * left. rewrite Hvis. set_solver.
      * right. eauto.
Qed.

Lemma visible_names_targets (targets : gmap string num) scene :
  Forall (is_target targets) scene → visible_names scene ⊆ dom targets.
Proof.
  intros Hall x (obj & Hin & <- & _)%visible_names_spec.
  rewrite Forall_forall in Hall. apply elem_of_dom. by apply Hall.
Qed.

(** What a call leaves in [discoverd]: the names it had and visible names of
    objects that honour the contract. *)
Lemma explore_call_discoverd self state action_str :
  ∃ seen,
    (transition_reward state action_str self).2 =
    set_discoverd (discoverd self ∪ seen) self ∧
    seen ⊆ dom (target_objects self).
Proof.
  destruct (explore_step_outcome self state action_str)
    as [(Hall & reward & done & ->)
       | (before & stranger & after & _ & Hbefore & _ & ->)]; simpl.
  - eexists. split; [done|]. by apply visible_names_targets.
  - eexists. split; [done|]. by apply visible_names_targets.
Qed.

(** X9.  [discoverd] never loses a name: over any sequence of calls, those
    that raise included, every name discovered before is still discovered
    after. *)
Theorem discoverd_only_grows (calls : list call) self :
  discoverd self ⊆ discoverd (feed calls self).2.
Proof.
  apply (feed_invariant (T := ExploreAllObjects.t num)
           (λ self', discoverd self ⊆ discoverd self')); [done| |done].
  intros state action_str self' Hsub. simpl.
  destruct (explore_call_discoverd self' state action_str) as (seen & -> & _).
  simpl. set_solver.
Qed.

(** X10.  Only names of targets are discovered: if [discoverd] holds only
    keys of [target_objects], it still does after any sequence of calls; so
    it does throughout the life of a task, which starts with none. *)
Theorem discoverd_within_targets (calls : list call) :
  (∀ self,
     discoverd self ⊆ dom (target_objects self) →
     discoverd (feed calls self).2 ⊆ dom (target_objects (feed calls self).2)) ∧
  (∀ kwargs fresh,
     __init__ kwargs = Ok fresh →
     discoverd (feed calls fresh).2 ⊆ dom (target_objects (feed calls fresh).2)).
Proof.
  assert (Hkeep : ∀ self,
            discoverd self ⊆ dom (target_objects self) →
            discoverd (feed calls self).2 ⊆ dom (target_objects (feed calls self).2)).
  { intros self.
    apply (feed_invariant (T := ExploreAllObjects.t num)
             (λ self', discoverd self' ⊆ dom (target_objects self'))); [done|].
    intros state action_str self' Hsub. simpl.
    destruct (explore_call_discoverd self' state action_str) as (seen & -> & Hseen).
    simpl. set_solver. }
  split; [exact Hkeep|].
  intros kwargs fresh [= <-]. apply Hkeep. simpl. set_solver.
Qed.
End Discoveries.

Section Completion.
Context {num : Type} `{!PyNumber num}.
Import ExploreAllObjects.
Implicit Types (self : ExploreAllObjects.t num) (scene : list ThorObject).

(** A call on a scene that honours the contract: what it returns, from what
    the loop has earned. *)
Lemma explore_step_returns self state action_str :
  Forall (is_target (target_objects self)) (objects (metadata state)) →
  let found := discoverd self ∪ visible_names (objects (metadata state)) in
  let all_found := bool_decide (size found = size (target_objects self)) in
  ∃ earned,
    for_each visit (objects (metadata state)) (BaseTask.movement_reward (base self)) self =
    (Ok earned, set_discoverd found self) ∧
    transition_reward state action_str self =
    (Ok (if BaseTask.episode_length_reached (base self) then earned
         else if all_found then nadd earned (of_int 50) else earned,
         BaseTask.episode_length_reached (base self) || all_found),
     set_discoverd found self).
Proof.
  intros Hall. simpl.
  destruct (loop_over_targets _ (BaseTask.movement_reward (base self)) self Hall)
    as [earned Hloop].
  exists earned. split; [done|].
  unfold transition_reward. run_method. rewrite Hloop. simpl.
  destruct (BaseTask.episode_length_reached (base self)); simpl; [done|].
  by case_bool_decide.
Qed.

(** Within the keys of the targets, as many names as targets means all of
    them. *)
Lemma all_targets_found (targets : gmap string num) (found : gset string) :
  found ⊆ dom targets → (size found = size targets ↔ found = dom targets).
Proof.
  intros Hsub. split.
  - intros Hsize. apply set_subseteq_size_eq; [done|]. rewrite size_dom. lia.
  - intros ->. apply size_dom.
Qed.

(** X11.  For a task whose [discoverd] holds only target names, a call that
    returns reports [done] exactly when the episode length is reached or
    every key of [target_objects] has been discovered, this call's
    discoveries included. *)
Theorem explore_done_iff self state action_str reward done self' :
  discoverd self ⊆ dom (target_objects self) →
  transition_reward state action_str self = (Ok (reward, done), self') →
  discoverd self' = discoverd self ∪ visible_names (objects (metadata state)) ∧
  (done = true ↔
   BaseTask.episode_length_reached (base self) = true ∨
   discoverd self' = dom (target_objects self)).
Proof.
  intros Hsub Hret.
  destruct (explore_step_outcome self state action_str)
    as [(Hall & _) | (before & stranger & after & _ & _ & _ & Hraise)];
    [|congruence].
  destruct (explore_step_returns self state action_str Hall) as (earned & _ & Hstep).
  simpl in Hstep. rewrite Hstep in Hret. injection Hret as _ <- <-. simpl.
  split; [done|].
  rewrite orb_true_iff, bool_decide_eq_true.
  rewrite all_targets_found; [done|].
  pose proof (visible_names_targets _ _ Hall). set_solver.
Qed.

(** Objects whose visible names are all discovered earn nothing and change
    nothing. *)
Lemma loop_nothing_new scene reward self :
  Forall (λ obj, is_target (target_objects self) obj ∧
                 (visible obj = true → name obj ∈ discoverd self)) scene →
  for_each visit scene reward self = (Ok reward, self).
Proof.
  induction 1 as [|obj rest [Hobj Hseen] _ IH]; simpl; [done|].
  unfold mbind, M_bind. rewrite (visit_target _ _ _ Hobj).
  destruct (visible obj); simpl; [|exact IH].
  by rewrite (bool_decide_eq_true_2 _ (Hseen eq_refl)).
Qed.

(** X12.  An object is paid once: after a call that returned, a second call
    on the same snapshot discovers nothing and earns no object reward; it
    returns the movement reward (plus [50] if all targets are found and the
    episode length is not reached), the same [done], and leaves the task as
    it is. *)
Theorem second_look_earns_nothing self state action_str action_str' reward done self' :
  transition_reward state action_str self = (Ok (reward, done), self') →
  transition_reward state action_str' self' =
  (Ok (if BaseTask.episode_length_reached (base self)
       then BaseTask.movement_reward (base self)
       else if done then nadd (BaseTask.movement_reward (base self)) (of_int 50)
       else BaseTask.movement_reward (base self),
       done), self').
Proof.
  intros Hret.
  destruct (explore_step_outcome self state action_str)
    as [(Hall & _) | (before & stranger & after & _ & _ & _ & Hraise)];
    [|congruence].
  destruct (explore_step_returns self state action_str Hall) as (earned & _ & Hstep).
  simpl in Hstep. rewrite Hstep in Hret. injection Hret as _ <- <-.
  unfold transition_reward. run_method.
  rewrite loop_nothing_new.
  - simpl.
    destruct (BaseTask.episode_length_reached (base self)); simpl; [done|].
    by case_bool_decide.
  - simpl. rewrite Forall_forall in Hall. apply Forall_forall. intros obj Hin.
    split; [by apply Hall|]. intros Hvis.
    apply elem_of_union_r, visible_names_spec. eauto.
Qed.

(** X13.  Once every target is discovered, the completion bonus is paid at
    every further call: on a scene that honours the contract, while the
    episode length is not reached, the call returns
    [movement_reward + 50] and [done = True] and changes nothing. *)
Theorem completion_bonus_repeats self state action_str :
  discoverd self = dom (target_objects self) →
  Forall (is_target (target_objects self)) (objects (metadata state)) →
  BaseTask.episode_length_reached (base self) = false →
  transition_reward state action_str self =
  (Ok (nadd (BaseTask.movement_reward (base self)) (of_int 50), true), self).
Proof.
  intros Hfound Hall Hnot.
  unfold transition_reward. run_method.
  rewrite loop_all_discovered.
  - simpl. rewrite Hnot, Hfound, size_dom. simpl.
    by rewrite bool_decide_eq_true_2.
  - eapply Forall_impl; [exact Hall|]. simpl. intros obj Hobj.
    split; [done|]. rewrite Hfound. by apply elem_of_dom.
Qed.

(** X14.  An [ExploreAllObjects] constructed with no [target_objects] has
    nothing to find: on an empty scene every call returns [done = True] (and
    the [50], while the episode length is not reached); on any other scene
    the call raises the assertion error.  The task is not changed. *)
Theorem explore_without_targets kwargs fresh n state action_str :
  __init__ kwargs = Ok fresh →
  opt_target_objects (task kwargs) = None →
  transition_reward state action_str (advance n fresh) =
  match objects (metadata state) with
  | [] =>
      (Ok (if BaseTask.episode_length_reached (base (advance n fresh))
           then BaseTask.movement_reward (base fresh)
           else nadd (BaseTask.movement_reward (base fresh)) (of_int 50),
           true), advance n fresh)
  | _ :: _ => (Raise AssertionError, advance n fresh)
  end.
Proof.
  intros [= <-] Hunset. unfold advance. simpl. rewrite Hunset. simpl.
  destruct (objects (metadata state)) as [|obj rest] eqn:Hscene.
  - unfold transition_reward. run_method. rewrite Hscene. simpl.
    destruct (BaseTask.episode_length_reached _); by simpl.
  - unfold transition_reward. run_method. rewrite Hscene. simpl.
    unfold mbind, M_bind. rewrite visit_stranger; [done|].
    simpl. intros [r Hr]. by rewrite lookup_empty in Hr.
Qed.
End Completion.

Section ConstructionSucceeds.
Context {num : Type} `{!PyNumber num}.
Implicit Types (kwargs : Kwargs num).

(** X15.  Each of the two constructors returns a task exactly when
    [target_objects] is set and all its keys are members of
    [pickup_objects].  The task it returns holds the configured targets, the
    receptacle dicts as configured or empty when unset, no previous
    inventory, and the base fields of [BaseTask.__init__] with
    [step_num = 0]. *)
Theorem construction_succeeds_iff kwargs :
  let valid targets :=
    opt_target_objects (task kwargs) = Some targets ∧
    ∀ obj, is_Some (targets !! obj) → obj ∈ pickup_objects kwargs in
  ((∃ self, PickUpTask.__init__ kwargs = Ok self) ↔ ∃ targets, valid targets) ∧
  ((∃ self, PickUpAndFindReceptacleTask.__init__ kwargs = Ok self) ↔
   ∃ targets, valid targets) ∧
  (∀ targets, valid targets →
     PickUpTask.__init__ kwargs = Ok {|
       PickUpTask.base := BaseTask.__init__ kwargs;
       PickUpTask.target_objects := targets;
       PickUpTask.prev_inventory := [];
     |} ∧
     PickUpAndFindReceptacleTask.__init__ kwargs = Ok {|
       PickUpAndFindReceptacleTask.base := BaseTask.__init__ kwargs;
       PickUpAndFindReceptacleTask.target_objects := targets;
       PickUpAndFindReceptacleTask.target_receptacles :=
         default ∅ (opt_target_receptacles (task kwargs));
       PickUpAndFindReceptacleTask.target_receptacles_need_open :=
         default ∅ (opt_target_receptacles_need_open (task kwargs));
       PickUpAndFindReceptacleTask.prev_inventory := [];
     |} ∧
     BaseTask.step_num (BaseTask.__init__ kwargs) = 0).
Proof.
  cbv zeta.
  assert (Hok : ∀ targets,
            opt_target_objects (task kwargs) = Some targets →
            (∀ obj, is_Some (targets !! obj) → obj ∈ pickup_objects kwargs) →
            bool_of_list (filter (λ obj, obj ∉ pickup_objects kwargs) (keys targets))
            = false).
  { intros targets Hset Hvalid.
    destruct (bool_of_list _) eqn:E; [|done].
    apply missing_objects_not_empty in E as (obj & Hkey & Hmiss).
    by destruct Hmiss; apply Hvalid. }
  assert (Hvalid : ∀ targets,
            opt_target_objects (task kwargs) = Some targets →
            bool_of_list (filter (λ obj, obj ∉ pickup_objects kwargs) (keys targets))
            = false →
            ∀ obj, is_Some (targets !! obj) → obj ∈ pickup_objects kwargs).
  { intros targets Hset E obj Hkey.
    destruct (decide (obj ∈ pickup_objects kwargs)) as [|Hmiss]; [done|].
    assert (bool_of_list
              (filter (λ obj, obj ∉ pickup_objects kwargs) (keys targets)) = true)
      by (apply missing_objects_not_empty; eauto).
    congruence. }
  unfold PickUpTask.__init__, PickUpAndFindReceptacleTask.__init__, task_target_objects.
  destruct (opt_target_objects (task kwargs)) as [targets|] eqn:Hset; simpl.
  - destruct (bool_of_list _) eqn:E.
    + split; [|split].
      * split; [by intros [? ?]|].
        intros (targets' & [= <-] & Hall). by rewrite (Hok targets) in E.
      * split; [by intros [? ?]|].
        intros (targets' & [= <-] & Hall). by rewrite (Hok targets) in E.
      * intros targets' [[= <-] Hall]. by rewrite (Hok targets) in E.
    + split; [|split].
      * split; [intros _; exists targets|]; eauto.
      * split; [intros _; exists targets|]; eauto.
      * by intros targets' [[= <-] _].
  - split; [|split].
    + split; [by intros [? ?] | by intros (? & ? & _)].
    + split; [by intros [? ?] | by intros (? & ? & _)].
    + by intros targets' [? _].
Qed.
End ConstructionSucceeds.

Section Schedule.
Context {num : Type} `{!PyNumber num}.

Lemma episode_length_reached_decide (b : BaseTask.t num) n :
  BaseTask.max_episode_length b = Some n → n ≠ 0 →
  BaseTask.episode_length_reached b = bool_decide (n ≤ BaseTask.step_num b).
Proof.
  intros Hn Hnz. unfold BaseTask.episode_length_reached. rewrite Hn. simpl.
  rewrite (proj2 (negb_true_iff _)) by lia. simpl.
  case_bool_decide; lia.
Qed.

(** The [done] of each call of a sequence in which the owner adds one step
    before every call. *)
Lemma pick_up_schedule n (calls : list call) : ∀ self : PickUpTask.t num,
  BaseTask.max_episode_length (PickUpTask.base self) = Some n → n ≠ 0 →
  Forall (λ c, ticks c = 1) calls →
  (feed calls self).1.2 = None ∧
  (feed calls self).1.1.*2 =
  (λ k : nat, bool_decide (n ≤ BaseTask.step_num (PickUpTask.base self) + Z.of_nat (S k)))
    <$> seq 0 (length calls).
Proof.
  induction calls as [|c rest IH]; intros self Hn Hnz Hticks; simpl; [done|].
  apply Forall_cons in Hticks as [Hc Hrest].
  destruct (pick_up_step_outcome (advance (ticks c) self) (snapshot c) (last_action c))
    as [reward Hstep].
  simpl in Hstep. rewrite Hstep.
  specialize (IH (PickUpTask.set_prev_inventory
                    (inventoryObjects (metadata (snapshot c)))
                    (advance (ticks c) self)) Hn Hnz Hrest).
  destruct (feed rest _) as [[out err] self'']. simpl in *.
  destruct IH as [-> Hout]. split; [done|]. f_equal.
  - rewrite (episode_length_reached_decide _ n) by done. simpl.
    apply bool_decide_ext. lia.
  - etrans; [exact Hout|]. rewrite <-fmap_S_seq.
    etrans; [|apply (list_fmap_compose S)].
    apply list_fmap_ext. intros i k _. simpl. apply bool_decide_ext. lia.
Qed.

(** X16.  A task just constructed, whose owner adds one step before every
    call, reports [done] from the call that reaches [max_episode_length] on,
    at every call and not before: with [max_episode_length] at [n] other
    than [0] ([1000] when unset), no call raises and the [k]-th call returns
    [done = True] exactly when [n <= k]. *)
Theorem pick_up_done_schedule kwargs fresh n (calls : list call) :
  PickUpTask.__init__ kwargs = Ok fresh →
  default (Some 1000) (opt_max_episode_length kwargs) = Some n →
  n ≠ 0 →
  Forall (λ c, ticks c = 1) calls →
  (feed calls fresh).1.2 = None ∧
  (feed calls fresh).1.1.*2 =
  (λ k : nat, bool_decide (n ≤ Z.of_nat (S k))) <$> seq 0 (length calls).
Proof.
  intros Hfresh Hn Hnz Hticks.
  assert (PickUpTask.base fresh = BaseTask.__init__ kwargs) as Hbase.
  { revert Hfresh. unfold PickUpTask.__init__.
    destruct (task_target_objects kwargs); [simpl|done].
    case_match; [done|]. by intros [= <-]. }
  destruct (pick_up_schedule n calls fresh) as [Herr Hout]; try done.
  { by rewrite Hbase. }
  split; [done|]. rewrite Hout, Hbase. simpl.
  apply list_fmap_ext. intros i k _. apply bool_decide_ext. lia.
Qed.
End Schedule.

(** * The further properties on concrete inputs *)

(** Putting the apple into the fridge at step 3 of an episode of length 3
    returns [done = True]: the episode length is [3] and is reached. *)
Lemma done_iff_episode_length_reached_witness :
  ∃ n, BaseTask.max_episode_length
         (PickUpAndFindReceptacleTask.base (receptacle_task 3 [thing "Apple" true]))
       = Some n ∧
       n ≠ 0 ∧
       n ≤ BaseTask.step_num
             (PickUpAndFindReceptacleTask.base (receptacle_task 3 [thing "Apple" true])).
Proof.
  apply (proj2 (@done_iff_episode_length_reached Q Q_number)
           (receptacle_task 3 [thing "Apple" true]) put_in_fridge None
           (299 # 100)%Q true eq_refl).
  reflexivity.
Defined.

(** Moving ahead with the apple in hand is a step with no action. *)
Lemma other_actions_are_ignored_witness :
  PickUpAndFindReceptacleTask.transition_reward holding_apple (Some "MoveAhead")
    (receptacle_task 1 []) =
  PickUpAndFindReceptacleTask.transition_reward holding_apple None
    (receptacle_task 1 []).
Proof.
  apply other_actions_are_ignored; discriminate.
Defined.

(** Opening the fridge ([2]) while picking up the apple ([5]) earns
    [-0.01 + 5 + 2]. *)
Lemma open_adds_reward_of_last_opened_witness :
  PickUpAndFindReceptacleTask.transition_reward holding_apple_fridge_open
    (Some "OpenObject") (receptacle_task 1 []) =
  (Ok ((699 # 100)%Q, false), receptacle_task 1 [thing "Apple" true]).
Proof.
  exact (proj1 (open_adds_reward_of_last_opened (receptacle_task 1 [])
                  holding_apple_fridge_open)
           (thing "Fridge" true) eq_refl).
Defined.

(** Picking up the apple: the two classes return [4.99] and store the
    apple. *)
Lemma agrees_with_pick_up_task_witness :
  (PickUpAndFindReceptacleTask.transition_reward holding_apple None
     (receptacle_task 1 [])).1 =
  (PickUpTask.transition_reward holding_apple None (pick_up_task 1 [])).1 ∧
  as_pick_up
    (PickUpAndFindReceptacleTask.transition_reward holding_apple None
       (receptacle_task 1 [])).2 =
  (PickUpTask.transition_reward holding_apple None (pick_up_task 1 [])).2.
Proof.
  apply (agrees_with_pick_up_task (receptacle_task 1 []) holding_apple None);
    [reflexivity | discriminate | discriminate].
Defined.

(** Apple, empty hand, mug: [4.99], [-0.01], [0.99]. *)
Lemma pick_up_again_pays_again_witness :
  ∃ d1 d2 d3,
    (feed [ {| ticks := 1; snapshot := holding_apple; last_action := None |};
            {| ticks := 1; snapshot := put_nowhere; last_action := None |};
            {| ticks := 1;
               snapshot := snapshot_of [thing "Mug" true] None None None [];
               last_action := None |} ]
       (pick_up_task 0 [])).1 =
    ([((499 # 100)%Q, d1); ((-1 # 100)%Q, d2); ((99 # 100)%Q, d3)], None).
Proof.
  exact (pick_up_again_pays_again (pick_up_task 0 [])
           {| ticks := 1; snapshot := holding_apple; last_action := None |}
           {| ticks := 1; snapshot := put_nowhere; last_action := None |}
           {| ticks := 1;
              snapshot := snapshot_of [thing "Mug" true] None None None [];
              last_action := None |}
           (thing "Apple" true) [] 5%Q (thing "Mug" true) [] 1%Q
           eq_refl eq_refl eq_refl eq_refl eq_refl eq_refl).
Defined.

(** The apple, then the fridge: [4.99], [2.99]. *)
Lemma pick_up_then_put_down_witness :
  ∃ d1 d2,
    (feed [ {| ticks := 1; snapshot := holding_apple; last_action := None |};
            {| ticks := 1; snapshot := put_in_fridge; last_action := None |} ]
       (receptacle_task 0 [])).1 =
    ([((499 # 100)%Q, d1); ((299 # 100)%Q, d2)], None).
Proof.
  refine (pick_up_then_put_down (receptacle_task 0 [])
            {| ticks := 1; snapshot := holding_apple; last_action := None |}
            {| ticks := 1; snapshot := put_in_fridge; last_action := None |}
            (thing "Apple" true) [] 5%Q (thing "Fridge" true)
            _ _ _ _ _ _ _ _ _);
    first [reflexivity | discriminate].
Defined.

(** Two calls on a task that knows the apple: the mug joins [discoverd], and
    both are keys of the targets. *)
Lemma discoverd_within_targets_witness :
  ExploreAllObjects.discoverd
    (feed [ {| ticks := 1; snapshot := scene_mug_visible; last_action := None |};
            {| ticks := 1; snapshot := scene_mug_then_stranger; last_action := None |} ]
       (explore_task 0 {[ "Apple" ]})).2 ⊆
  dom (ExploreAllObjects.target_objects
         (feed [ {| ticks := 1; snapshot := scene_mug_visible; last_action := None |};
                 {| ticks := 1; snapshot := scene_mug_then_stranger;
                    last_action := None |} ]
            (explore_task 0 {[ "Apple" ]})).2).
Proof.
  apply (proj1 (discoverd_within_targets _)).
  simpl. rewrite dom_insert_L, dom_singleton_L. set_solver.
Defined.

(** Seeing the mug when the apple is known finds the last target: the call
    reports [done] because every key of the targets is discovered. *)
Lemma explore_done_iff_witness :
  let self := explore_task 1 {[ "Apple" ]} in
  let self' :=
    ExploreAllObjects.set_discoverd
      ({[ "Apple" ]} ∪ visible_names (objects (metadata scene_mug_visible))) self in
  ExploreAllObjects.discoverd self' =
  ExploreAllObjects.discoverd self ∪ visible_names (objects (metadata scene_mug_visible)) ∧
  (true = true ↔
   BaseTask.episode_length_reached (ExploreAllObjects.base self) = true ∨
   ExploreAllObjects.discoverd self' = dom (ExploreAllObjects.target_objects self)).
Proof.
  intros self self'.
  refine (explore_done_iff self scene_mug_visible None (5099 # 100)%Q true self' _ _).
  - simpl. rewrite dom_insert_L, dom_singleton_L. set_solver.
  - reflexivity.
Defined.

(** A second look at the mug, one step before the episode length: the mug
    earns nothing more, the [50] is paid again. *)
Lemma second_look_earns_nothing_witness :
  let self := explore_task 1 {[ "Apple" ]} in
  let self' :=
    ExploreAllObjects.set_discoverd
      ({[ "Apple" ]} ∪ visible_names (objects (metadata scene_mug_visible))) self in
  ExploreAllObjects.transition_reward scene_mug_visible None self' =
  (Ok ((4999 # 100)%Q, true), self').
Proof.
  intros self self'.
  exact (second_look_earns_nothing self scene_mug_visible None None
           (5099 # 100)%Q true self' eq_refl).
Defined.

(** With the apple and the mug discovered, a call on the same scene pays
    [-0.01 + 50]. *)
Lemma completion_bonus_repeats_witness :
  ExploreAllObjects.transition_reward scene_mug_visible None
    (explore_task 1 (dom ({[ "Apple" := 5%Q; "Mug" := 1%Q ]} : gmap string Q))) =
  (Ok ((4999 # 100)%Q, true),
   explore_task 1 (dom ({[ "Apple" := 5%Q; "Mug" := 1%Q ]} : gmap string Q))).
Proof.
  refine (completion_bonus_repeats
            (explore_task 1 (dom ({[ "Apple" := 5%Q; "Mug" := 1%Q ]} : gmap string Q)))
            scene_mug_visible None _ _ _).
  - reflexivity.
  - repeat constructor; eexists; reflexivity.
  - reflexivity.
Defined.

(** Constructed with [target_objects] unset: an empty scene ends the episode
    with the [50], a scene with a mug raises. *)
Lemma explore_without_targets_witness :
  let fresh : ExploreAllObjects.t Q := {|
    ExploreAllObjects.base := BaseTask.__init__ kwargs_unset;
    ExploreAllObjects.target_objects := ∅;
    ExploreAllObjects.discoverd := ∅;
  |} in
  ExploreAllObjects.transition_reward put_nowhere None (advance 1 fresh) =
  (Ok ((4999 # 100)%Q, true), advance 1 fresh) ∧
  ExploreAllObjects.transition_reward scene_mug_visible None (advance 1 fresh) =
  (Raise AssertionError, advance 1 fresh).
Proof.
  intros fresh. split.
  - exact (explore_without_targets kwargs_unset fresh 1 put_nowhere None
             eq_refl eq_refl).
  - exact (explore_without_targets kwargs_unset fresh 1 scene_mug_visible None
             eq_refl eq_refl).
Defined.

(** The full configuration builds both tasks. *)
Lemma construction_succeeds_iff_witness :
  PickUpTask.__init__ kwargs_full = Ok (pick_up_task 0 []) ∧
  PickUpAndFindReceptacleTask.__init__ kwargs_full = Ok (receptacle_task 0 []).
Proof.
  destruct (@construction_succeeds_iff Q Q_number kwargs_full) as (_ & _ & Hbuilt).
  destruct (Hbuilt {[ "Apple" := 5%Q; "Mug" := 1%Q ]}) as (Hpick & Hreceptacle & _).
  - split; [reflexivity|]. intros obj Hkey%elem_of_dom.
    rewrite dom_insert_L, dom_singleton_L in Hkey. simpl. set_solver.
  - split; [exact Hpick | exact Hreceptacle].
Defined.

(** With an episode length of 3, four calls report [done] at the third and
    the fourth. *)
Lemma pick_up_done_schedule_witness :
  let calls :=
    [ {| ticks := 1; snapshot := holding_apple; last_action := None |};
      {| ticks := 1; snapshot := put_nowhere; last_action := None |};
      {| ticks := 1; snapshot := holding_apple; last_action := None |};
      {| ticks := 1; snapshot := holding_apple; last_action := None |} ] in
  (feed calls (pick_up_task 0 [])).1.2 = None ∧
  (feed calls (pick_up_task 0 [])).1.1.*2 = [false; false; true; true].
Proof.
  intros calls.
  refine (pick_up_done_schedule kwargs_full (pick_up_task 0 []) 3 calls _ _ _ _).
  - reflexivity.
  - reflexivity.
  - discriminate.
  - repeat constructor.
Defined.
